(** * convertidor.py: tabular file to JSON converter

    A shallow embedding of [src/convertidor.py].  The script is a single
    straight-line pipeline wrapped in one [try ... except] statement:

      splitext -> read_excel / read_csv -> normalise [Fecha_Compra]
               -> to_dict(orient='records') -> metadata -> open/json.dump

    The Python runtime pieces the script relies on (exception classes and
    their hierarchy, [os.path.splitext], the file system, [print]) are
    modelled explicitly.  The parts of pandas whose behaviour depends on
    file contents, on the version of the library or on the platform (the
    CSV and Excel parsers, the conversion of a column to dates, the
    formatting of a date) are fields of a record [Pandas]; the script is
    a function of that record, so every theorem holds for any parser and
    any date conversion. *)

From Stdlib Require Import ZArith String Ascii List Bool Lia.
From stdpp Require Import gmap strings list.

Open Scope string_scope.
Open Scope Z_scope.

(** ** Python exceptions *)

Module Py.

(** The exception classes that can reach the script's handlers, with the
    single-inheritance chain Python and pandas give them. *)
Inductive exc_class : Set :=
  | BaseException
  | KeyboardInterrupt
  | Exception
  | OSError
  | FileNotFoundError
  | PermissionError
  | IsADirectoryError
  | NotADirectoryError
  | ValueError
  | ParserError          (* pandas.errors.ParserError(ValueError) *)
  | EmptyDataError       (* pandas.errors.EmptyDataError(ValueError) *)
  | DateParseError       (* dateutil ParserError / pandas DateParseError: ValueError *)
  | OutOfBoundsDatetime  (* pandas.errors.OutOfBoundsDatetime(ValueError) *)
  | TypeError
  | AttributeError
  | ImportError.

#[global] Instance exc_class_eq_dec : EqDecision exc_class.
Proof. solve_decision. Defined.

(** [base c] is the direct superclass of [c]. *)
Definition base (c : exc_class) : option exc_class :=
  match c with
  | BaseException => None
  | KeyboardInterrupt => Some BaseException
  | Exception => Some BaseException
  | OSError => Some Exception
  | FileNotFoundError => Some OSError
  | PermissionError => Some OSError
  | IsADirectoryError => Some OSError
  | NotADirectoryError => Some OSError
  | ValueError => Some Exception
  | ParserError => Some ValueError
  | EmptyDataError => Some ValueError
  | DateParseError => Some ValueError
  | OutOfBoundsDatetime => Some ValueError
  | TypeError => Some Exception
  | AttributeError => Some Exception
  | ImportError => Some Exception
  end.

(** Walk up the inheritance chain; the hierarchy has depth 4. *)
Fixpoint issubclass_fuel (fuel : nat) (c d : exc_class) : bool :=
  if bool_decide (c = d) then true
  else match fuel with
       | O => false
       | S k => match base c with
                | Some b => issubclass_fuel k b d
                | None => false
                end
       end.

Definition issubclass (c d : exc_class) : bool := issubclass_fuel 4 c d.

(** An exception object: its class and [str(e)]. *)
Record exception : Set := mkExc { cls : exc_class; msg : string }.

Definition isinstance (e : exception) (c : exc_class) : bool :=
  issubclass (cls e) c.

(** Result of evaluating a Python expression: a value or a raised exception. *)
Inductive result (A : Type) : Type :=
  | Ok (a : A)
  | Raise (e : exception).

Arguments Ok {A} a.
Arguments Raise {A} e.

Definition rbind {A B} (r : result A) (k : A -> result B) : result B :=
  match r with
  | Ok a => k a
  | Raise e => Raise e
  end.

(** [[f(x) for x in l]] where [f] may raise: the first exception wins. *)
Fixpoint rmap {A B} (f : A -> result B) (l : list A) : result (list B) :=
  match l with
  | [] => Ok []
  | x :: l' =>
      rbind (f x) (fun y => rbind (rmap f l') (fun ys => Ok (y :: ys)))
  end.

End Py.

Import Py.

(** ** Strings and [os.path.splitext] *)

Module OsPath.

(** [s[:n]] and [s[n:]] for [0 <= n]. *)
Fixpoint str_take (n : nat) (s : string) : string :=
  match n, s with
  | S k, String a s' => String a (str_take k s')
  | _, _ => ""
  end.

Fixpoint str_drop (n : nat) (s : string) : string :=
  match n, s with
  | S k, String _ s' => str_drop k s'
  | _, _ => s
  end.

(** [s.rfind(c)]: index of the last occurrence of [c], or [-1]. *)
Fixpoint rfind_from (c : ascii) (s : string) (i : Z) (acc : Z) : Z :=
  match s with
  | EmptyString => acc
  | String a s' => rfind_from c s' (i + 1) (if Ascii.eqb a c then i else acc)
  end.

Definition rfind (s : string) (c : ascii) : Z := rfind_from c s 0 (-1).

(** The [while filenameIndex < dotIndex] loop of [genericpath._splitext]:
    [true] when it returns from inside the loop, that is when some
    character of the file name before the last dot is not a dot. *)
Fixpoint skip_leading_dots (fuel : nat) (p : string) (extsep : ascii)
    (filenameIndex dotIndex : Z) : bool :=
  match fuel with
  | O => false
  | S k =>
      if filenameIndex <? dotIndex then
        match String.get (Z.to_nat filenameIndex) p with
        | Some a =>
            if Ascii.eqb a extsep
            then skip_leading_dots k p extsep (filenameIndex + 1) dotIndex
            else true
        | None => true
        end
      else false
  end.

(** [genericpath._splitext(p, sep, altsep, extsep)]. *)
Definition _splitext (p : string) (sep : ascii) (altsep : option ascii)
    (extsep : ascii) : string * string :=
  let sepIndex := rfind p sep in
  let sepIndex :=
    match altsep with
    | Some a => Z.max sepIndex (rfind p a)
    | None => sepIndex
    end in
  let dotIndex := rfind p extsep in
  if (dotIndex >? sepIndex)
     && skip_leading_dots (String.length p) p extsep (sepIndex + 1) dotIndex
  then (str_take (Z.to_nat dotIndex) p, str_drop (Z.to_nat dotIndex) p)
  else (p, "").

(** [posixpath.splitext]. *)
Definition splitext (p : string) : string * string :=
  _splitext p "/"%char None "."%char.

(** Directory part of a path, as the kernel resolves it when a file is
    created: [None] stands for the current directory or the root, which
    always exist. *)
Definition parent_dir (p : string) : option string :=
  let i := rfind p "/"%char in
  if i <=? 0 then None else Some (str_take (Z.to_nat i) p).

(** The directory prefixes of a path, outermost first: [a/b/c.csv] has
    [a] and [a/b]. *)
Definition ancestors (p : string) : list string :=
  omap (fun i =>
          match String.get i p with
          | Some a => if Ascii.eqb a "/" then Some (str_take i p) else None
          | None => None
          end)
       (seq 1 (String.length p - 1)).

End OsPath.

Import OsPath.

(** ** Calendar dates and [strftime('%Y-%m-%d')] *)

Module Dates.

Record Date : Set := mkDate { year : Z; month : Z; day : Z }.

#[global] Instance Date_eq_dec : EqDecision Date.
Proof. solve_decision. Defined.

Definition is_leap (y : Z) : bool :=
  ((y mod 4 =? 0) && negb (y mod 100 =? 0)) || (y mod 400 =? 0).

Definition days_in_month (y m : Z) : Z :=
  if m =? 2 then (if is_leap y then 29 else 28)
  else if (m =? 4) || (m =? 6) || (m =? 9) || (m =? 11) then 30
  else 31.

(** A day of the calendar with a four-digit year.  On these dates every
    C library prints [%Y-%m-%d] the same way; for a year below 1000 the
    padding of [%Y] depends on the platform. *)
Definition calendar_date (d : Date) : bool :=
  (1000 <=? year d) && (year d <=? 9999)
  && (1 <=? month d) && (month d <=? 12)
  && (1 <=? day d) && (day d <=? days_in_month (year d) (month d)).

Definition digit (n : Z) : ascii := ascii_of_nat (48 + Z.to_nat (n mod 10)).

(** Zero-padded decimal fields, as [%Y] (four digits), [%m] and [%d]. *)
Definition pad2 (n : Z) (rest : string) : string :=
  String (digit (n / 10)) (String (digit n) rest).

Definition pad4 (n : Z) (rest : string) : string :=
  String (digit (n / 1000)) (String (digit (n / 100)) (pad2 n rest)).

(** [%Y-%m-%d] of a calendar date with a four-digit year. *)
Definition strftime_Ymd (d : Date) : string :=
  pad4 (year d) (String "-" (pad2 (month d) (String "-" (pad2 (day d) "")))).

Definition is_digit (a : ascii) : bool :=
  let n := nat_of_ascii a in ((48 <=? n) && (n <=? 57))%nat.

Definition digit_val (a : ascii) : Z := Z.of_nat (nat_of_ascii a) - 48.

(** The canonical shape [YYYY-MM-DD]: ten characters, digits around two
    hyphens. *)
Definition is_canonical (s : string) : bool :=
  match s with
  | String y1 (String y2 (String y3 (String y4 (String h1
      (String m1 (String m2 (String h2 (String d1 (String d2 EmptyString))))))))) =>
      is_digit y1 && is_digit y2 && is_digit y3 && is_digit y4
      && Ascii.eqb h1 "-" && is_digit m1 && is_digit m2
      && Ascii.eqb h2 "-" && is_digit d1 && is_digit d2
  | _ => false
  end.

(** Reading a canonical text back. *)
Definition read_Ymd (s : string) : option Date :=
  match s with
  | String y1 (String y2 (String y3 (String y4 (String h1
      (String m1 (String m2 (String h2 (String d1 (String d2 EmptyString))))))))) =>
      if is_canonical s then
        Some (mkDate (1000 * digit_val y1 + 100 * digit_val y2
                      + 10 * digit_val y3 + digit_val y4)
                     (10 * digit_val m1 + digit_val m2)
                     (10 * digit_val d1 + digit_val d2))
      else None
  | _ => None
  end.

End Dates.

Import Dates.

(** ** Tables *)

Module Frame.

(** A cell of a loaded table, as the Python object pandas hands out. *)
Inductive value : Set :=
  | VNull                       (* NaN / None / NaT: a missing cell *)
  | VBool (b : bool)
  | VInt (n : Z)
  | VFloat (repr : string)      (* a finite float, by its [repr] *)
  | VStr (s : string)
  | VTimestamp (d : Date).      (* a datetime cell of a worksheet *)

#[global] Instance value_eq_dec : EqDecision value.
Proof. solve_decision. Defined.

(** A [DataFrame]: the column labels and the rows, in file order. *)
Record DataFrame : Set := mkFrame {
  columns : list string;
  rows : list (list value)
}.

(** What pandas' readers guarantee about a frame: labels are distinct
    (duplicates are renamed [a], [a.1], ...) and every row has one cell
    per column. *)
Definition wf_frame (df : DataFrame) : Prop :=
  NoDup (columns df) /\ Forall (fun r => length r = length (columns df)) (rows df).

(** Position of a label among the columns. *)
Fixpoint index_of (name : string) (cols : list string) : option nat :=
  match cols with
  | [] => None
  | c :: cols' =>
      if bool_decide (c = name) then Some O
      else option_map S (index_of name cols')
  end.

(** ['name' in df.columns]. *)
Definition has_column (name : string) (df : DataFrame) : bool :=
  bool_decide (name ∈ columns df).

(** [df[name]]: the cells of one column, top to bottom. *)
Definition getitem (df : DataFrame) (name : string) : list value :=
  match index_of name (columns df) with
  | Some i => map (fun r => default VNull (r !! i)) (rows df)
  | None => []
  end.

(** [df[name] = series] for an existing column and a series as long as
    the frame. *)
Definition setitem (df : DataFrame) (name : string) (series : list value)
    : DataFrame :=
  match index_of name (columns df) with
  | Some i =>
      mkFrame (columns df)
              (zip_with (fun r v => <[i := v]> r) (rows df) series)
  | None => df
  end.

(** [dict(zip(keys, vals))]: later pairs overwrite earlier ones. *)
Definition dict_zip (keys : list string) (vals : list value)
    : gmap string value :=
  foldl (fun m kv => <[kv.1 := kv.2]> m) ∅ (zip keys vals).

(** [df.to_dict(orient='records')]: one dictionary per row. *)
Definition to_dict_records (df : DataFrame) : list (gmap string value) :=
  map (dict_zip (columns df)) (rows df).

End Frame.

Import Frame.

(** ** The output document *)

Record Metadata : Type := mkMetadata {
  fuente_original : string;
  fecha_conversion : string;
  registros_procesados : nat
}.

Record Document : Type := mkDocument {
  metadata : Metadata;
  datos : list (gmap string value)
}.

(** [json.dump] accepts every cell except a [Timestamp] object. *)
Definition serializable (v : value) : bool :=
  match v with
  | VTimestamp _ => false
  | _ => true
  end.

Definition row_serializable (r : gmap string value) : bool :=
  forallb (fun kv => serializable kv.2) (map_to_list r).

Definition doc_serializable (d : Document) : bool :=
  forallb row_serializable (datos d).

(** ** The world the script runs in *)

(** What a file holds.  The text [json.dump(doc, f, indent=4,
    ensure_ascii=False)] produces is kept as the document it renders;
    [JsonPrefix] is the beginning of that text, left behind when the dump
    stops at a value it cannot encode. *)
Inductive content : Type :=
  | Raw (bytes : string)
  | JsonText (doc : Document)
  | JsonPrefix (doc : Document).

Inductive node : Type :=
  | Dir
  | File (readable writable : bool) (data : content).

(** The calls that reach the file system and the script's own reading of
    the clock, in the order they happen. *)
Inductive call : Set :=
  | CallReadExcel (path : string)
  | CallReadCsv (path : string) (encoding : string)
  | CallNow
  | CallOpenW (path : string) (encoding : string)
  | CallJsonDump (indent : Z) (ensure_ascii : bool).

#[global] Instance call_eq_dec : EqDecision call.
Proof. solve_decision. Defined.

Record World : Type := mkWorld {
  fs : gmap string node;       (* files and directories by path *)
  now_iso : string;            (* datetime.now().isoformat() at this instant *)
  console : list string;       (* lines printed so far *)
  calls : list call            (* file and clock calls made so far *)
}.

(** The parts of pandas that depend on file contents, on the version of
    the library and on the platform.

    [to_datetime now serie] is [pd.to_datetime(serie)] evaluated when the
    clock reads [now], as the [.dt] accessor sees it: one entry per cell,
    [NaT] as [None]; or the exception the conversion raises, or the
    [AttributeError] of the accessor on a result that is not a column of
    datetimes.  Which
    texts are dates, which are read as missing, how one format is chosen
    for the column and how [now] and [today] are resolved is all inside
    this function.  [format_Ymd d] is [ts.strftime('%Y-%m-%d')].

    Two facts about the library are part of the record: the converted
    series has the index of its argument, hence its length, and a
    calendar date with a four-digit year is printed in the plain
    [YYYY-MM-DD] form. *)
Record Pandas : Type := mkPandas {
  parse_csv : string -> content -> result DataFrame;   (* encoding, file *)
  parse_excel : content -> result DataFrame;
  to_datetime : string -> list value -> result (list (option Date));
  format_Ymd : Date -> string;
  to_datetime_length :
    forall now serie fechas,
      to_datetime now serie = Ok fechas -> length fechas = length serie;
  format_Ymd_calendar :
    forall d, calendar_date d = true -> format_Ymd d = strftime_Ymd d
}.

(** Whether a path lies below a regular file: one of its directory
    prefixes is a file. *)
Definition below_file (f : gmap string node) (path : string) : bool :=
  existsb (fun d => match f !! d with
                    | Some (File _ _ _) => true
                    | _ => false
                    end)
          (ancestors path).

(** ** The monad of the script: state that survives exceptions *)

Definition M (A : Type) : Type := World -> result A * World.

Definition ret {A} (a : A) : M A := fun w => (Ok a, w).

Definition raise {A} (e : exception) : M A := fun w => (Raise e, w).

Definition bind {A B} (m : M A) (k : A -> M B) : M B :=
  fun w =>
    match m w with
    | (Ok a, w') => k a w'
    | (Raise e, w') => (Raise e, w')
    end.

Declare Scope py_scope.
Delimit Scope py_scope with py.
Notation "x <- c1 ;; c2" := (bind c1 (fun x => c2))
  (at level 100, c1 at next level, right associativity) : py_scope.
Notation "c1 ;;; c2" := (bind c1 (fun _ => c2))
  (at level 100, right associativity) : py_scope.
Open Scope py_scope.

(** [try: body  except C1: h1  except C2 as e: h2 ...]: the first clause
    whose class the exception is an instance of handles it; an exception
    no clause matches propagates. *)
Fixpoint select_handler {A} (clauses : list (exc_class * (exception -> M A)))
    (e : exception) : option (M A) :=
  match clauses with
  | [] => None
  | (c, h) :: rest =>
      if isinstance e c then Some (h e) else select_handler rest e
  end.

Definition try_except {A} (body : M A)
    (clauses : list (exc_class * (exception -> M A))) : M A :=
  fun w =>
    match body w with
    | (Ok a, w') => (Ok a, w')
    | (Raise e, w') =>
        match select_handler clauses e with
        | Some h => h w'
        | None => (Raise e, w')
        end
    end.

(** ** Built-ins and library calls *)

Definition log (c : call) : M unit :=
  fun w => (Ok tt, mkWorld (fs w) (now_iso w) (console w) (calls w ++ [c])).

(** [print(line)].  The console is taken to accept the text, so the call
    returns. *)
Definition print (line : string) : M unit :=
  fun w => (Ok tt, mkWorld (fs w) (now_iso w) (console w ++ [line]) (calls w)).

Definition set_fs (f : gmap string node) : M unit :=
  fun w => (Ok tt, mkWorld f (now_iso w) (console w) (calls w)).

(** Opening a path for reading and handing its contents to a parser. *)
Definition read_with (parse : content -> result DataFrame) (path : string)
    : M DataFrame :=
  fun w =>
    match fs w !! path with
    | None =>
        if below_file (fs w) path then
          (Raise (mkExc NotADirectoryError ("Not a directory: " ++ path)), w)
        else
          (Raise (mkExc FileNotFoundError ("No such file or directory: " ++ path)), w)
    | Some Dir => (Raise (mkExc IsADirectoryError ("Is a directory: " ++ path)), w)
    | Some (File false _ _) => (Raise (mkExc PermissionError ("Permission denied: " ++ path)), w)
    | Some (File true _ data) => (parse data, w)
    end.

(** [pd.read_excel(path)]. *)
Definition read_excel (pd : Pandas) (path : string) : M DataFrame :=
  log (CallReadExcel path) ;;; read_with (parse_excel pd) path.

(** [pd.read_csv(path, encoding=enc)]. *)
Definition read_csv (pd : Pandas) (path : string) (enc : string) : M DataFrame :=
  log (CallReadCsv path enc) ;;; read_with (parse_csv pd enc) path.

(** [datetime.datetime.now().isoformat()]. *)
Definition datetime_now_isoformat : M string :=
  log CallNow ;;; (fun w => (Ok (now_iso w), w)).

(** [open(path, 'w', encoding=enc)]: create the file or truncate it. *)
Definition open_w (path : string) (enc : string) : M unit :=
  log (CallOpenW path enc) ;;;
  fun w =>
    match fs w !! path with
    | Some Dir => (Raise (mkExc IsADirectoryError ("Is a directory: " ++ path)), w)
    | Some (File _ false _) => (Raise (mkExc PermissionError ("Permission denied: " ++ path)), w)
    | Some (File r true _) => set_fs (<[path := File r true (Raw "")]> (fs w)) w
    | None =>
        match parent_dir path with
        | None => set_fs (<[path := File true true (Raw "")]> (fs w)) w
        | Some d =>
            match fs w !! d with
            | Some Dir => set_fs (<[path := File true true (Raw "")]> (fs w)) w
            | Some (File _ _ _) =>
                (Raise (mkExc NotADirectoryError ("Not a directory: " ++ path)), w)
            | None =>
                (Raise (mkExc FileNotFoundError ("No such file or directory: " ++ path)), w)
            end
        end
    end.

(** The permission bits of the file just opened. *)
Definition bits_of (n : option node) : bool * bool :=
  match n with
  | Some (File r wr _) => (r, wr)
  | _ => (true, true)
  end.

(** [json.dump(doc, f, indent=4, ensure_ascii=False)] on the file opened
    at [path]; the [with] block closes the file on both exits.  Text cells
    are taken to be encodable in UTF-8 and the disk to have room, so the
    dump can only stop at an object it has no encoding for, a
    [TypeError]. *)
Definition json_dump (doc : Document) (path : string) (indent : Z)
    (ensure_ascii : bool) : M unit :=
  log (CallJsonDump indent ensure_ascii) ;;;
  fun w =>
    let '(r, wr) := bits_of (fs w !! path) in
    if doc_serializable doc then
      set_fs (<[path := File r wr (JsonText doc)]> (fs w)) w
    else
      match set_fs (<[path := File r wr (JsonPrefix doc)]> (fs w)) w with
      | (_, w') =>
          (Raise (mkExc TypeError "Object of type Timestamp is not JSON serializable"), w')
      end.

(** ** [pd.to_datetime(...).dt.strftime('%Y-%m-%d')] *)

(** [pd.to_datetime(serie)], evaluated at the clock of the world. *)
Definition pd_to_datetime (pd : Pandas) (serie : list value)
    : M (list (option Date)) :=
  fun w => (to_datetime pd (now_iso w) serie, w).

(** [series.dt.strftime('%Y-%m-%d')]: [NaT] comes out as [NaN]. *)
Definition strftime_cell (pd : Pandas) (t : option Date) : value :=
  match t with
  | Some d => VStr (format_Ymd pd d)
  | None => VNull
  end.

Definition dt_strftime (pd : Pandas) (series : list (option Date)) : list value :=
  map (strftime_cell pd) series.

(** ** The script *)

Inductive Outcome : Set :=
  | Success
  | InputNotFound
  | FormatError (reason : string)
  | UnexpectedError (cause : string).

Definition is_failure (o : Outcome) : bool :=
  match o with
  | Success => false
  | _ => true
  end.

Section Script.

Variable pd : Pandas.
Variables archivo_entrada archivo_salida : string.

(** Lines 23-36: pick the reader from the extension. *)
Definition load : M DataFrame :=
  let '(nombre, extension) := splitext archivo_entrada in
  if bool_decide (extension = ".xlsx") then
    read_excel pd archivo_entrada
  else if bool_decide (extension = ".csv") then
    read_csv pd archivo_entrada "latin-1"
  else
    raise (mkExc ValueError "Formato de archivo no soportado. Use .xlsx o .csv").

(** Lines 39-42: rewrite the purchase-date column when there is one. *)
Definition normalize (df : DataFrame) : M DataFrame :=
  if has_column "Fecha_Compra" df then
    fechas <- pd_to_datetime pd (getitem df "Fecha_Compra") ;;
    ret (setitem df "Fecha_Compra" (dt_strftime pd fechas))
  else ret df.

(** Lines 46-59: the records, the metadata and the final document. *)
Definition assemble (df : DataFrame) : M Document :=
  let datos_extraidos := to_dict_records df in
  ahora <- datetime_now_isoformat ;;
  let metadata := mkMetadata archivo_entrada ahora (length datos_extraidos) in
  let json_final := mkDocument metadata datos_extraidos in
  ret json_final.

(** Lines 63-67: the [with open(...)] block. *)
Definition write (json_final : Document) : M unit :=
  open_w archivo_salida "utf-8" ;;;
  json_dump json_final archivo_salida 4 false.

(** Lines 21-70: the body of the [try]. *)
Definition try_body : M Outcome :=
  df <- load ;;
  df <- normalize df ;;
  json_final <- assemble df ;;
  write json_final ;;;
  print ("¡Éxito! El archivo '" ++ archivo_salida ++ "' ha sido creado correctamente.") ;;;
  ret Success.

(** Lines 75-83: the three [except] clauses, in source order. *)
Definition handlers : list (exc_class * (exception -> M Outcome)) :=
  [ (FileNotFoundError, fun _ =>
       print ("Error: No se encontró el archivo '" ++ archivo_entrada
              ++ "'. Asegúrate de que esté en la misma carpeta.") ;;;
       ret InputNotFound);
    (ValueError, fun ve =>
       print ("Error de formato: " ++ msg ve) ;;;
       ret (FormatError (msg ve)));
    (Exception, fun e =>
       print ("Ocurrió un error inesperado: " ++ msg e) ;;;
       ret (UnexpectedError (msg e))) ].

(** The whole module, top to bottom. *)
Definition script : M Outcome :=
  print ("Iniciando la conversión de '" ++ archivo_entrada ++ "'...") ;;;
  try_except try_body handlers.

End Script.

(** Status the interpreter hands to the caller of the process: [0] when
    the module ran to its end, non-zero when an exception escaped it. *)
Definition exit_status (r : result Outcome) : Z :=
  match r with
  | Ok _ => 0
  | Raise e => if bool_decide (cls e = KeyboardInterrupt) then 130 else 1
  end.

(** The outcome of a run that did not die of an uncaught exception. *)
Definition outcome_of (r : result Outcome) : option Outcome :=
  match r with
  | Ok o => Some o
  | Raise _ => None
  end.

(** The document stored at a path, when the file there is a complete dump. *)
Definition document_at (f : gmap string node) (path : string) : option Document :=
  match f !! path with
  | Some (File _ _ (JsonText doc)) => Some doc
  | _ => None
  end.

(** ** A reference instance of the parsers *)

Module Ref.

(** Two digits / four digits at the head of a text. *)
Definition num2 (a b : ascii) : option Z :=
  if is_digit a && is_digit b then Some (10 * digit_val a + digit_val b) else None.

Definition num4 (a b c d : ascii) : option Z :=
  if is_digit a && is_digit b && is_digit c && is_digit d
  then Some (1000 * digit_val a + 100 * digit_val b + 10 * digit_val c + digit_val d)
  else None.

(** A date parser for the two spellings [MM/DD/YYYY] and [YYYY-MM-DD]. *)
Definition parse_date (s : string) : option Date :=
  match s with
  | String m1 (String m2 (String "/" (String d1 (String d2 (String "/"
      (String y1 (String y2 (String y3 (String y4 EmptyString))))))))) =>
      match num4 y1 y2 y3 y4, num2 m1 m2, num2 d1 d2 with
      | Some y, Some m, Some d => Some (mkDate y m d)
      | _, _, _ => None
      end
  | String y1 (String y2 (String y3 (String y4 (String "-"
      (String m1 (String m2 (String "-" (String d1 (String d2 EmptyString))))))))) =>
      match num4 y1 y2 y3 y4, num2 m1 m2, num2 d1 d2 with
      | Some y, Some m, Some d => Some (mkDate y m d)
      | _, _, _ => None
      end
  | _ => None
  end.

(** A date of the calendar within the range of [datetime]. *)
Definition real_date (d : Date) : bool :=
  (1 <=? year d) && (year d <=? 9999)
  && (1 <=? month d) && (month d <=? 12)
  && (1 <=? day d) && (day d <=? days_in_month (year d) (month d)).

(** The texts pandas reads as a missing date. *)
Definition nat_strings : list string :=
  ["NaT"; "nat"; "NAT"; "NaN"; "nan"; "NAN"].

(** The day of a clock reading [YYYY-MM-DDTHH:MM:SS]. *)
Definition date_of_clock (now : string) : option Date :=
  read_Ymd (str_take 10 now).

(** One cell through the reference conversion: a missing cell and the
    texts for a missing date give [NaT]; [now] and [today] give the day
    of the clock; other text goes through [parse_date] and is a
    [ValueError] when it is not a date; a boolean is a [TypeError]; a
    number is a count of nanoseconds from the epoch, taken to stay
    within its first day. *)
Definition to_datetime_cell (now : string) (v : value) : result (option Date) :=
  match v with
  | VNull => Ok None
  | VStr s =>
      if bool_decide (s ∈ nat_strings) then Ok None
      else if bool_decide (s = "now") || bool_decide (s = "today") then
        match date_of_clock now with
        | Some d => Ok (Some d)
        | None =>
            Raise (mkExc DateParseError
                     ("Unknown datetime string format, unable to parse: " ++ s))
        end
      else
        match parse_date s with
        | Some d =>
            if real_date d then Ok (Some d)
            else Raise (mkExc DateParseError ("day is out of range for month: " ++ s))
        | None =>
            Raise (mkExc DateParseError
                     ("Unknown datetime string format, unable to parse: " ++ s))
        end
  | VTimestamp d => Ok (Some d)
  | VBool _ => Raise (mkExc TypeError "<class 'bool'> is not convertible to datetime")
  | VInt _ | VFloat _ => Ok (Some (mkDate 1970 1 1))
  end.

(** The reference conversion of a column, cell by cell. *)
Definition to_datetime (now : string) (serie : list value)
    : result (list (option Date)) :=
  rmap (to_datetime_cell now) serie.

Definition to_datetime_length (now : string) (serie : list value)
    (fechas : list (option Date)) :
  to_datetime now serie = Ok fechas -> length fechas = length serie.
Proof.
  unfold to_datetime. revert fechas.
  induction serie as [|v serie IH]; simpl; intros fechas.
  - by intros [= <-].
  - destruct (to_datetime_cell now v); simpl; [|discriminate].
    destruct (rmap _ serie); simpl; [|discriminate].
    intros [= <-]. simpl. f_equal. by apply IH.
Qed.

(** A reader for the plain subset of CSV: comma-separated, unquoted
    fields, one record per line, blank lines skipped.  As in pandas a
    column whose cells are all integers is an integer column, an integer
    column with empty cells becomes a float column with [NaN] in the
    gaps, and any other column is text with [NaN] for its empty cells; a
    short line is padded with empty cells and a long one is an error. *)
Definition nl : ascii := ascii_of_nat 10.

Fixpoint split_on (sep : ascii) (s : string) : list string :=
  match s with
  | EmptyString => [EmptyString]
  | String a s' =>
      if Ascii.eqb a sep then EmptyString :: split_on sep s'
      else match split_on sep s' with
           | h :: t => String a h :: t
           | [] => [String a EmptyString]
           end
  end.

Definition non_blank (s : string) : bool :=
  match s with
  | EmptyString => false
  | _ => true
  end.

Fixpoint all_digits (s : string) : bool :=
  match s with
  | EmptyString => true
  | String a s' => is_digit a && all_digits s'
  end.

Definition is_int_text (s : string) : bool :=
  match s with
  | EmptyString => false
  | String "-" s' => non_blank s' && all_digits s'
  | _ => all_digits s
  end.

Fixpoint digits_value (s : string) (acc : Z) : Z :=
  match s with
  | EmptyString => acc
  | String a s' => digits_value s' (10 * acc + digit_val a)
  end.

Definition int_of_text (s : string) : Z :=
  match s with
  | String "-" s' => - digits_value s' 0
  | _ => digits_value s 0
  end.

Inductive dtype : Set := Int64 | Float64 | Object.

(** The type pandas infers for a column from its cells. *)
Definition infer_dtype (cells : list string) : dtype :=
  if forallb is_int_text cells then Int64
  else if forallb (fun c => negb (non_blank c) || is_int_text c) cells then Float64
  else Object.

Definition convert (t : dtype) (c : string) : value :=
  match t with
  | Int64 => VInt (int_of_text c)
  | Float64 => if non_blank c then VFloat (c ++ ".0") else VNull
  | Object => if non_blank c then VStr c else VNull
  end.

Definition pad_row (n : nat) (r : list string) : list string :=
  take n (r ++ replicate n EmptyString).

Definition read_csv_text (text : string) : result DataFrame :=
  match filter (fun l => non_blank l = true) (split_on nl text) with
  | [] => Raise (mkExc EmptyDataError "No columns to parse from file")
  | header :: body =>
      let names := split_on "," header in
      let records := map (split_on ",") body in
      if existsb (fun r => (length names <? length r)%nat) records then
        Raise (mkExc ParserError "Error tokenizing data. C error: too many fields")
      else
        let records := map (pad_row (length names)) records in
        let dtypes :=
          imap (fun j _ =>
                  infer_dtype (map (fun r => default EmptyString (r !! j)) records))
               names in
        Ok (mkFrame names (map (fun r => zip_with convert dtypes r) records))
  end.

Definition parse_table (c : content) : result DataFrame :=
  match c with
  | Raw bytes => read_csv_text bytes
  | _ => Raise (mkExc ParserError "Error tokenizing data. C error: too many fields")
  end.

(** The text of a file from its lines. *)
Fixpoint csv_text (lines : list string) : string :=
  match lines with
  | [] => EmptyString
  | l :: rest => l ++ String nl (csv_text rest)
  end.

(** Sample files, each with the frame it loads to. *)
Definition csv_ventas : string :=
  csv_text [ "Cliente,Fecha_Compra,Monto";
             "Peña,03/15/2024,120";
             "Ruiz,,80" ].

Definition tabla_ventas : DataFrame :=
  mkFrame ["Cliente"; "Fecha_Compra"; "Monto"]
          [ [VStr "Peña"; VStr "03/15/2024"; VInt 120];
            [VStr "Ruiz"; VNull; VInt 80] ].

Definition csv_simple : string :=
  csv_text [ "Cliente,Fecha_Compra";
             "Ana,03/15/2024";
             "Luis,01/02/2024" ].

Definition tabla_simple : DataFrame :=
  mkFrame ["Cliente"; "Fecha_Compra"]
          [ [VStr "Ana"; VStr "03/15/2024"];
            [VStr "Luis"; VStr "01/02/2024"] ].

Definition csv_mala : string :=
  csv_text [ "Cliente,Fecha_Compra";
             "Ana,03/15/2024";
             "Luis,no-es-fecha" ].

Definition tabla_mala : DataFrame :=
  mkFrame ["Cliente"; "Fecha_Compra"]
          [ [VStr "Ana"; VStr "03/15/2024"];
            [VStr "Luis"; VStr "no-es-fecha"] ].

Definition csv_hoy : string :=
  csv_text [ "Cliente,Fecha_Compra"; "Ana,today" ].

Definition tabla_hoy : DataFrame :=
  mkFrame ["Cliente"; "Fecha_Compra"] [ [VStr "Ana"; VStr "today"] ].

Definition csv_sin_fecha : string :=
  csv_text [ "Cliente,Monto"; "Ana,5" ].

Definition tabla_sin_fecha : DataFrame :=
  mkFrame ["Cliente"; "Monto"] [ [VStr "Ana"; VInt 5] ].

(** No Excel engine in the reference instance: [read_excel] reports the
    missing optional dependency. *)
Definition no_engine (c : content) : result DataFrame :=
  Raise (mkExc ImportError "Missing optional dependency 'openpyxl'").

Definition pandas : Pandas :=
  mkPandas (fun _ => parse_table) no_engine to_datetime strftime_Ymd
           to_datetime_length (fun _ _ => eq_refl).

(** An instance whose Excel engine yields a given worksheet, whatever
    the bytes of the workbook. *)
Definition with_workbook (hoja : DataFrame) : Pandas :=
  mkPandas (fun _ => parse_table) (fun _ => Ok hoja) to_datetime strftime_Ymd
           to_datetime_length (fun _ _ => eq_refl).

(** A worksheet with a datetime column that is not the purchase date. *)
Definition hoja_entregas : DataFrame :=
  mkFrame ["Cliente"; "Entrega"]
          [ [VStr "Ana"; VTimestamp (mkDate 2024 3 20)] ].

Definition world (files : gmap string node) (now : string) : World :=
  mkWorld files now [] [].

Definition readable (bytes : string) : node := File true true (Raw bytes).

End Ref.

(** ** Vocabulary of the statements *)

(** The line printed before the [try]. *)
Definition start_line (archivo_entrada : string) : string :=
  "Iniciando la conversión de '" ++ archivo_entrada ++ "'...".

(** The closing console line of a run, by outcome. *)
Definition final_line (archivo_entrada archivo_salida : string) (o : Outcome)
    : string :=
  match o with
  | Success =>
      "¡Éxito! El archivo '" ++ archivo_salida ++ "' ha sido creado correctamente."
  | InputNotFound =>
      "Error: No se encontró el archivo '" ++ archivo_entrada
      ++ "'. Asegúrate de que esté en la misma carpeta."
  | FormatError reason => "Error de formato: " ++ reason
  | UnexpectedError cause => "Ocurrió un error inesperado: " ++ cause
  end.

(** Which clause of the [except] chain takes an exception. *)
Definition classify (e : exception) : result Outcome :=
  if isinstance e FileNotFoundError then Ok InputNotFound
  else if isinstance e ValueError then Ok (FormatError (msg e))
  else if isinstance e Exception then Ok (UnexpectedError (msg e))
  else Raise e.

Definition unsupported_msg : string :=
  "Formato de archivo no soportado. Use .xlsx o .csv".

(** The extension the script compares. *)
Definition extension_of (archivo_entrada : string) : string :=
  (splitext archivo_entrada).2.

(** The same instant seen later: only the clock reading differs. *)
Definition at_time (w : World) (now : string) : World :=
  mkWorld (fs w) now (console w) (calls w).

(** A document with its timestamp blanked. *)
Definition without_timestamp (d : Document) : Document :=
  mkDocument
    (mkMetadata (fuente_original (metadata d)) "" (registros_procesados (metadata d)))
    (datos d).

(** The cell of row [r] under label [c]. *)
Definition cell (df : DataFrame) (r : list value) (c : string) : option value :=
  match index_of c (columns df) with
  | Some j => r !! j
  | None => None
  end.

(** The value stored for row [i] under label [c] in the document at a path. *)
Definition output_cell (f : gmap string node) (path : string) (i : nat)
    (c : string) : option value :=
  match document_at f path with
  | Some doc =>
      match datos doc !! i with
      | Some row => row !! c
      | None => None
      end
  | None => None
  end.

(** Whether [open(path, 'w')] goes through on these files: the path holds
    a writable file, or nothing while its directory exists. *)
Definition openable (f : gmap string node) (path : string) : bool :=
  match f !! path with
  | Some Dir => false
  | Some (File _ wr _) => wr
  | None =>
      match parent_dir path with
      | None => true
      | Some d =>
          match f !! d with
          | Some Dir => true
          | _ => false
          end
      end
  end.

(** The reader call the extension selects, if any. *)
Definition reader_call (archivo_entrada : string) : option call :=
  if bool_decide (extension_of archivo_entrada = ".xlsx")
  then Some (CallReadExcel archivo_entrada)
  else if bool_decide (extension_of archivo_entrada = ".csv")
  then Some (CallReadCsv archivo_entrada "latin-1")
  else None.

(** The parser the extension selects, if any. *)
Definition reader_parse (pd : Pandas) (archivo_entrada : string)
    : option (content -> result DataFrame) :=
  if bool_decide (extension_of archivo_entrada = ".xlsx")
  then Some (parse_excel pd)
  else if bool_decide (extension_of archivo_entrada = ".csv")
  then Some (parse_csv pd "latin-1")
  else None.

(** No character of [s] is [c]. *)
Fixpoint lacks (c : ascii) (s : string) : bool :=
  match s with
  | EmptyString => true
  | String a s' => negb (Ascii.eqb a c) && lacks c s'
  end.

(** The frame [normalize] returns, as a function of the clock reading and
    of the loaded frame. *)
Definition normalized (pd : Pandas) (now : string) (df : DataFrame)
    : result DataFrame :=
  if has_column "Fecha_Compra" df then
    rbind (to_datetime pd now (getitem df "Fecha_Compra"))
          (fun fechas => Ok (setitem df "Fecha_Compra" (dt_strftime pd fechas)))
  else Ok df.

(** The document [assemble] builds from a frame at a given clock reading. *)
Definition document_of (archivo_entrada : string) (now : string)
    (df : DataFrame) : Document :=
  mkDocument
    (mkMetadata archivo_entrada now (length (to_dict_records df)))
    (to_dict_records df).

(** The world after one more console line. *)
Definition printed (w : World) (line : string) : World :=
  mkWorld (fs w) (now_iso w) (console w ++ [line]) (calls w).

(** ** Stage lemmas *)

Section Stages.

Variable pd : Pandas.
Variables archivo_entrada archivo_salida : string.

Lemma read_with_world parse path w r w' :
  read_with parse path w = (r, w') -> w' = w.
Proof.
  unfold read_with. intros H.
  destruct (fs w !! path) as [[|[] ? ?]|]; [..|destruct (below_file _ _)];
    congruence.
Qed.

Lemma load_unsupported w :
  extension_of archivo_entrada <> ".xlsx" ->
  extension_of archivo_entrada <> ".csv" ->
  load pd archivo_entrada w = (Raise (mkExc ValueError unsupported_msg), w).
Proof.
  unfold extension_of, load. intros Hx Hc.
  destruct (splitext archivo_entrada) as [nombre extension]; simpl in *.
  rewrite !bool_decide_eq_false_2 by assumption. reflexivity.
Qed.

Lemma load_xlsx w :
  extension_of archivo_entrada = ".xlsx" ->
  load pd archivo_entrada w = read_excel pd archivo_entrada w.
Proof.
  unfold extension_of, load. intros Hx.
  destruct (splitext archivo_entrada) as [nombre extension]; simpl in *.
  rewrite bool_decide_eq_true_2 by assumption. reflexivity.
Qed.

Lemma load_csv w :
  extension_of archivo_entrada = ".csv" ->
  load pd archivo_entrada w = read_csv pd archivo_entrada "latin-1" w.
Proof.
  unfold extension_of, load. intros Hc.
  destruct (splitext archivo_entrada) as [nombre extension]; simpl in *.
  subst extension. reflexivity.
Qed.

(** Loading never changes the files, the console or the clock. *)
Lemma load_effect w r w1 :
  load pd archivo_entrada w = (r, w1) ->
  fs w1 = fs w /\ console w1 = console w /\ now_iso w1 = now_iso w.
Proof.
  unfold load.
  destruct (splitext archivo_entrada) as [nombre extension].
  repeat case_bool_decide;
    unfold read_excel, read_csv, raise, bind, log; intros Hrun;
    try (match type of Hrun with read_with ?p ?q ?w0 = _ =>
           destruct (read_with p q w0) as [r0 w0'] eqn:E end;
         apply read_with_world in E);
    inversion Hrun; subst; done.
Qed.

(** What the loader depends on: the parsers and the node at the input
    path; when the path is absent, whether it lies below a file. *)
Lemma load_result_same w1 w2 :
  fs w1 !! archivo_entrada = fs w2 !! archivo_entrada ->
  (fs w2 !! archivo_entrada = None ->
   below_file (fs w1) archivo_entrada = below_file (fs w2) archivo_entrada) ->
  (load pd archivo_entrada w1).1 = (load pd archivo_entrada w2).1.
Proof.
  intros Hsame Hbelow. unfold load.
  destruct (splitext archivo_entrada) as [nombre extension].
  repeat case_bool_decide; trivial;
    unfold read_excel, read_csv, bind, log, read_with; simpl;
    rewrite Hsame;
    (destruct (fs w2 !! archivo_entrada) as [[|[] ? ?]|] eqn:E;
     try reflexivity; rewrite (Hbelow eq_refl);
     by destruct (below_file (fs w2) archivo_entrada)).
Qed.

(** A table can only come from a path that exists. *)
Lemma load_ok_exists w df :
  (load pd archivo_entrada w).1 = Ok df -> fs w !! archivo_entrada <> None.
Proof.
  unfold load.
  destruct (splitext archivo_entrada) as [nombre extension].
  repeat case_bool_decide; try discriminate;
    unfold read_excel, read_csv, bind, log, read_with; simpl;
    (destruct (fs w !! archivo_entrada) as [[|[] ? ?]|];
     [..|destruct (below_file _ _)]); simpl; congruence.
Qed.

Lemma normalize_eq df w :
  normalize pd df w = (normalized pd (now_iso w) df, w).
Proof.
  unfold normalize, normalized, bind, pd_to_datetime, ret.
  destruct (has_column _ df); [|reflexivity].
  destruct (to_datetime _ _ _); reflexivity.
Qed.

Lemma assemble_eq df w :
  assemble archivo_entrada df w =
    (Ok (document_of archivo_entrada (now_iso w) df),
     mkWorld (fs w) (now_iso w) (console w) (calls w ++ [CallNow])).
Proof. reflexivity. Qed.

(** Opening the output either fails and leaves the files alone, or leaves
    an empty writable file at the path. *)
Lemma open_w_effect path enc w r w3 :
  open_w path enc w = (r, w3) ->
  console w3 = console w /\ now_iso w3 = now_iso w /\
  ((exists e, r = Raise e /\ fs w3 = fs w /\ issubclass (cls e) OSError = true)
   \/ (r = Ok tt /\ exists rd, fs w3 = <[path := File rd true (Raw "")]> (fs w))).
Proof.
  unfold open_w, bind, log, set_fs; simpl. intros Hrun.
  repeat match type of Hrun with
         | context [match ?x with _ => _ end] => destruct x eqn:?
         end;
    inversion Hrun; subst; simpl; (split_and!; trivial);
    first [ left; eexists; split_and!; reflexivity
          | right; split; [reflexivity | eexists; reflexivity] ].
Qed.

Lemma json_dump_effect doc path indent ea w r w4 :
  json_dump doc path indent ea w = (r, w4) ->
  console w4 = console w /\ now_iso w4 = now_iso w /\
  ((exists e, r = Raise e /\ cls e = TypeError /\ doc_serializable doc = false)
   \/ (r = Ok tt /\ doc_serializable doc = true /\
       exists rd wr, bits_of (fs w !! path) = (rd, wr) /\
                     fs w4 = <[path := File rd wr (JsonText doc)]> (fs w))).
Proof.
  unfold json_dump, bind, log, set_fs; simpl.
  destruct (bits_of (fs w !! path)) as [rd wr].
  destruct (doc_serializable doc); intros Hrun; inversion Hrun; subst; simpl;
    (split_and!; trivial).
  - right. split_and!; trivial. by exists rd, wr.
  - left. eexists. split_and!; reflexivity.
Qed.

(** The [with open(...)] block: the open fails and nothing changes, the
    dump fails, or the document is on disk. *)
Lemma write_inv doc w r w' :
  write archivo_salida doc w = (r, w') ->
  console w' = console w /\ now_iso w' = now_iso w /\
  ((exists e, r = Raise e /\ issubclass (cls e) OSError = true /\ fs w' = fs w)
   \/ (exists e, r = Raise e /\ cls e = TypeError)
   \/ (r = Ok tt /\ doc_serializable doc = true /\
       exists rd, fs w' = <[archivo_salida := File rd true (JsonText doc)]> (fs w))).
Proof.
  unfold write, bind. intros Hrun.
  destruct (open_w archivo_salida "utf-8" w) as [[[]|e] w3] eqn:Hopen.
  - apply open_w_effect in Hopen as (Hc & Hn & [(e & He & _)|(_ & rd & Hfs)]);
      [discriminate|].
    apply json_dump_effect in Hrun as (Hc' & Hn' & [(e & -> & He & _)|(-> & Hser & rd' & wr' & Hbits & Hfs')]).
    + split_and!; [congruence..|]. right; left; eauto.
    + split_and!; [congruence..|]. right; right. split_and!; trivial.
      rewrite Hfs, lookup_insert_eq in Hbits. simpl in Hbits. inversion Hbits; subst.
      exists rd'. rewrite Hfs', Hfs. apply insert_insert_eq.
  - inversion Hrun; subst.
    apply open_w_effect in Hopen as (Hc & Hn & [(e' & He & Hfs & Hsub)|(? & _)]);
      [|discriminate].
    inversion He; subst. split_and!; trivial. left; eauto.
Qed.

(** Writing over a writable file succeeds when the document can be encoded. *)
Lemma write_existing doc w rd c :
  fs w !! archivo_salida = Some (File rd true c) ->
  doc_serializable doc = true ->
  exists w', write archivo_salida doc w = (Ok tt, w') /\
             console w' = console w /\
             fs w' = <[archivo_salida := File rd true (JsonText doc)]> (fs w).
Proof.
  intros Hfile Hser.
  unfold write, bind, open_w, json_dump, bind, log, set_fs; simpl.
  rewrite Hfile; simpl. rewrite lookup_insert_eq; simpl. rewrite Hser; simpl.
  eexists. split_and!; [reflexivity..|]. simpl. apply insert_insert_eq.
Qed.

End Stages.

(** ** Whole runs *)

Section Runs.

Variable pd : Pandas.
Variables archivo_entrada archivo_salida : string.

(** Every way the body of the [try] can end. *)
Lemma try_body_inv w r w' :
  try_body pd archivo_entrada archivo_salida w = (r, w') ->
  exists rl w1,
    load pd archivo_entrada w = (rl, w1) /\
    match rl with
    | Raise e => r = Raise e /\ w' = w1
    | Ok df =>
        match normalized pd (now_iso w) df with
        | Raise e => r = Raise e /\ w' = w1
        | Ok df' =>
            let doc := document_of archivo_entrada (now_iso w) df' in
            (exists e, r = Raise e /\ issubclass (cls e) OSError = true /\
                       fs w' = fs w /\ console w' = console w)
            \/ (exists e, r = Raise e /\ cls e = TypeError /\ console w' = console w)
            \/ (r = Ok Success /\ doc_serializable doc = true /\
                console w' = (console w ++ [final_line archivo_entrada archivo_salida Success])%list /\
                exists rd, fs w' = <[archivo_salida := File rd true (JsonText doc)]> (fs w))
        end
    end.
Proof.
  unfold try_body, bind. intros Hrun.
  destruct (load pd archivo_entrada w) as [[df|e] w1] eqn:Hload;
    eexists _, w1; (split; [reflexivity|]);
    [|inversion Hrun; done].
  pose proof (load_effect _ _ _ _ _ Hload) as (Hfs & Hcon & Hnow).
  rewrite normalize_eq, Hnow in Hrun.
  destruct (normalized pd (now_iso w) df) as [df'|e]; [|inversion Hrun; done].
  rewrite assemble_eq in Hrun.
  match type of Hrun with
  | context [write archivo_salida ?d ?w0] =>
      destruct (write archivo_salida d w0) as [[[]|e] w4] eqn:Hwrite
  end;
    apply write_inv in Hwrite as (Hc & Hn & Hcases); simpl in *;
    rewrite Hnow in *.
  - destruct Hcases as [(e & ? & _)|[(e & ? & _)|(_ & Hser & rd & Hfs')]];
      try discriminate.
    unfold print, ret in Hrun. inversion Hrun; subst; simpl.
    right; right. split_and!; trivial; [congruence|].
    exists rd. congruence.
  - inversion Hrun; subst.
    destruct Hcases as [(e' & He & Hsub & Hfs')|[(e' & He & Hty)|(? & _)]];
      try discriminate; inversion He; subst.
    + left. exists e'. split_and!; trivial; congruence.
    + right; left. exists e'. split_and!; trivial; congruence.
Qed.

(** The module as a whole: the start line, then the body, then the clause
    [classify] selects. *)
Lemma script_eq w :
  script pd archivo_entrada archivo_salida w =
    match try_body pd archivo_entrada archivo_salida
            (printed w (start_line archivo_entrada)) with
    | (Ok o, w1) => (Ok o, w1)
    | (Raise e, w1) =>
        match classify e with
        | Ok o => (Ok o, printed w1 (final_line archivo_entrada archivo_salida o))
        | Raise _ => (Raise e, w1)
        end
    end.
Proof.
  unfold script, bind, try_except, print at 1; simpl.
  fold (start_line archivo_entrada). fold (printed w (start_line archivo_entrada)).
  destruct (try_body _ _ _ _) as [[o|e] w1]; [reflexivity|].
  unfold classify. simpl.
  destruct (isinstance e FileNotFoundError); [reflexivity|].
  destruct (isinstance e ValueError); [reflexivity|].
  destruct (isinstance e Exception); reflexivity.
Qed.

End Runs.

(** ** Facts about dates *)

Section DateFacts.

Lemma digit_cases (n : Z) :
  exists k, (k < 10)%nat /\ n mod 10 = Z.of_nat k.
Proof.
  pose proof (Z.mod_pos_bound n 10 ltac:(lia)) as Hb.
  exists (Z.to_nat (n mod 10)). lia.
Qed.

Lemma digit_spec (n : Z) :
  is_digit (digit n) = true /\ digit_val (digit n) = n mod 10.
Proof.
  destruct (digit_cases n) as (k & Hk & Hn).
  unfold digit. rewrite Hn, Nat2Z.id.
  do 10 (destruct k as [|k]; [split; reflexivity|]). lia.
Qed.

Lemma is_digit_digit n : is_digit (digit n) = true.
Proof. apply digit_spec. Qed.

Lemma digit_val_digit n : digit_val (digit n) = n mod 10.
Proof. apply digit_spec. Qed.

(** The text produced for any date has the canonical shape. *)
Lemma strftime_canonical d : is_canonical (strftime_Ymd d) = true.
Proof.
  unfold strftime_Ymd, pad4, pad2, is_canonical.
  rewrite !is_digit_digit. reflexivity.
Qed.

Lemma calendar_date_ranges d :
  calendar_date d = true ->
  1000 <= year d <= 9999 /\ 1 <= month d <= 12 /\ 1 <= day d <= 31.
Proof.
  unfold calendar_date. intros Hb.
  repeat (apply andb_prop in Hb as [Hb ?]).
  assert (days_in_month (year d) (month d) <= 31).
  { unfold days_in_month. repeat case_match; lia. }
  lia.
Qed.

Lemma read_digits4 y :
  0 <= y < 10000 ->
  1000 * ((y / 1000) mod 10) + 100 * ((y / 100) mod 10)
  + 10 * ((y / 10) mod 10) + y mod 10 = y.
Proof. intros. Z.div_mod_to_equations; lia. Qed.

Lemma read_digits2 m :
  0 <= m < 100 -> 10 * ((m / 10) mod 10) + m mod 10 = m.
Proof. intros. Z.div_mod_to_equations; lia. Qed.

(** For a calendar date the text reads back to the date. *)
Lemma read_strftime d :
  calendar_date d = true -> read_Ymd (strftime_Ymd d) = Some d.
Proof.
  intros Hb. apply calendar_date_ranges in Hb as (Hy & Hm & Hd).
  pose proof (strftime_canonical d) as Hcan.
  unfold read_Ymd, strftime_Ymd, pad4, pad2 in *.
  rewrite Hcan, !digit_val_digit.
  rewrite read_digits4, !read_digits2 by lia.
  by destruct d.
Qed.

End DateFacts.

(** ** Facts about frames *)

Section FrameFacts.

Lemma rmap_Forall2 {A B} (f : A -> result B) l l' :
  rmap f l = Ok l' -> Forall2 (fun x y => f x = Ok y) l l'.
Proof.
  revert l'. induction l as [|x l IH]; simpl; intros l'.
  - intros [= <-]. constructor.
  - destruct (f x) as [y|] eqn:Hx; simpl; [|discriminate].
    destruct (rmap f l) as [ys|]; simpl; [|discriminate].
    intros [= <-]. constructor; auto.
Qed.

(** One failing element makes the whole comprehension fail. *)
Lemma rmap_raise {A B} (f : A -> result B) l x :
  x ∈ l -> (forall y, f x <> Ok y) -> exists e, rmap f l = Raise e.
Proof.
  intros Hin Hbad. induction l as [|a l IH]; [by apply elem_of_nil in Hin|].
  simpl. apply elem_of_cons in Hin as [<-|Hin].
  - destruct (f x) as [y|e]; [by destruct (Hbad y)|]. by exists e.
  - destruct (f a) as [y|e]; simpl; [|by exists e].
    destruct (IH Hin) as (e & ->). by exists e.
Qed.

Lemma index_of_lookup name cols j :
  index_of name cols = Some j -> cols !! j = Some name.
Proof.
  revert j. induction cols as [|c cols IH]; simpl; intros j; [discriminate|].
  case_bool_decide; [intros [= <-]; simpl; congruence|].
  destruct (index_of name cols) as [k|]; simpl; [|discriminate].
  intros [= <-]. simpl. auto.
Qed.

Lemma index_of_elem name cols :
  name ∈ cols -> exists j, index_of name cols = Some j.
Proof.
  induction cols as [|c cols IH]; [by intros ?%elem_of_nil|].
  intros Hin. simpl. case_bool_decide; [by exists O|].
  apply elem_of_cons in Hin as [->|Hin]; [done|].
  destruct (IH Hin) as (j & ->). by exists (S j).
Qed.

Lemma has_column_index name df :
  has_column name df = true -> exists j, index_of name (columns df) = Some j.
Proof.
  unfold has_column. intros Hc%bool_decide_eq_true. by apply index_of_elem.
Qed.

(** Python's [dict(zip(...))] on distinct keys. *)
Lemma foldl_insert_notin (l : list (string * value)) (m : gmap string value) c :
  c ∉ l.*1 ->
  foldl (fun m kv => <[kv.1 := kv.2]> m) m l !! c = m !! c.
Proof.
  revert m. induction l as [|[k v] l IH]; simpl; intros m Hnot; [done|].
  apply not_elem_of_cons in Hnot as [Hne Hnot].
  rewrite IH by done. by apply lookup_insert_ne.
Qed.

Lemma foldl_insert_in (l : list (string * value)) (m : gmap string value) c v :
  NoDup l.*1 -> (c, v) ∈ l ->
  foldl (fun m kv => <[kv.1 := kv.2]> m) m l !! c = Some v.
Proof.
  revert m. induction l as [|[k x] l IH]; simpl; intros m Hnd Hin;
    [by apply elem_of_nil in Hin|].
  apply NoDup_cons in Hnd as [Hk Hnd].
  apply elem_of_cons in Hin as [[= -> ->]|Hin].
  - rewrite foldl_insert_notin by done. apply lookup_insert_eq.
  - by apply IH.
Qed.

Lemma dict_zip_lookup keys (vals : list value) j c v :
  NoDup keys -> length vals = length keys ->
  keys !! j = Some c -> vals !! j = Some v ->
  dict_zip keys vals !! c = Some v.
Proof.
  intros Hnd Hlen Hk Hv. unfold dict_zip.
  apply foldl_insert_in.
  - rewrite fst_zip by lia. done.
  - apply list_elem_of_lookup. exists j.
    rewrite lookup_zip_with, Hk, Hv. reflexivity.
Qed.

Lemma to_dict_records_length df :
  length (to_dict_records df) = length (rows df).
Proof. apply length_map. Qed.

End FrameFacts.

(** ** Facts about normalisation *)

Section NormalizeFacts.

Variable pd : Pandas.
Variable now : string.

Lemma normalized_columns df df' :
  normalized pd now df = Ok df' -> columns df' = columns df.
Proof.
  unfold normalized, setitem. destruct (has_column _ df); [|by intros [= <-]].
  destruct (to_datetime _ _ _); simpl; [|discriminate].
  intros [= <-]. by destruct (index_of _ _).
Qed.

(** The converted series has one date per row. *)
Lemma converted_length df fechas :
  has_column "Fecha_Compra" df = true ->
  to_datetime pd now (getitem df "Fecha_Compra") = Ok fechas ->
  length fechas = length (rows df).
Proof.
  intros Hhas Hto. apply to_datetime_length in Hto. rewrite Hto.
  destruct (has_column_index _ _ Hhas) as (jf & Hjf).
  unfold getitem. rewrite Hjf. apply length_map.
Qed.

(** Row by row: same width, the other cells untouched, the purchase-date
    cell replaced by the formatted date of that row. *)
Lemma normalized_row df df' i r :
  normalized pd now df = Ok df' ->
  rows df !! i = Some r ->
  exists r',
    rows df' !! i = Some r' /\ length r' = length r /\
    (forall j, columns df !! j <> Some "Fecha_Compra" -> r' !! j = r !! j) /\
    (forall jf, index_of "Fecha_Compra" (columns df) = Some jf ->
                exists fechas t,
                  to_datetime pd now (getitem df "Fecha_Compra") = Ok fechas /\
                  fechas !! i = Some t /\
                  r' = <[jf := strftime_cell pd t]> r).
Proof.
  unfold normalized. intros Hn Hr.
  destruct (has_column "Fecha_Compra" df) eqn:Hhas.
  - destruct (has_column_index _ _ Hhas) as (jf & Hjf).
    destruct (to_datetime pd now (getitem df "Fecha_Compra")) as [fechas|] eqn:Hto;
      simpl in Hn; [|discriminate].
    injection Hn as <-.
    pose proof (converted_length df fechas Hhas Hto) as Hlen.
    destruct (lookup_lt_is_Some_2 fechas i) as (t & Ht);
      [rewrite Hlen; by eapply lookup_lt_Some|].
    unfold setitem. rewrite Hjf. simpl.
    exists (<[jf := strftime_cell pd t]> r). split_and!.
    + rewrite lookup_zip_with, Hr. simpl.
      unfold dt_strftime. by rewrite list_lookup_fmap, Ht.
    + apply length_insert.
    + intros j Hj. apply list_lookup_insert_ne. intros <-.
      apply index_of_lookup in Hjf. done.
    + intros jf' [= <-]. by exists fechas, t.
  - injection Hn as <-. exists r. split_and!; trivial.
    intros jf Hjf. apply index_of_lookup in Hjf.
    unfold has_column in Hhas. apply bool_decide_eq_false in Hhas.
    destruct Hhas. apply list_elem_of_lookup. eauto.
Qed.

Lemma normalized_length df df' :
  normalized pd now df = Ok df' -> length (rows df') = length (rows df).
Proof.
  unfold normalized. intros Hn.
  destruct (has_column _ df) eqn:Hhas; [|by injection Hn as <-].
  destruct (to_datetime pd now (getitem df "Fecha_Compra")) as [fechas|] eqn:Hto;
    simpl in Hn; [|discriminate].
  injection Hn as <-.
  pose proof (converted_length df fechas Hhas Hto) as Hlen.
  unfold setitem.
  destruct (index_of _ _) as [jf|]; simpl; [|done].
  rewrite length_zip_with. unfold dt_strftime.
  rewrite length_map. lia.
Qed.

End NormalizeFacts.

(** ** Successful and failed runs *)

Section RunFacts.

Variable pd : Pandas.
Variables archivo_entrada archivo_salida : string.

(** The loader gives the same answer before and after the start line. *)
Lemma load_printed w line :
  (load pd archivo_entrada (printed w line)).1 = (load pd archivo_entrada w).1.
Proof. by apply load_result_same. Qed.

(** An exception leaving the body: console untouched, and the files too
    unless the dump itself failed. *)
Lemma try_body_raise w e w1 :
  try_body pd archivo_entrada archivo_salida w = (Raise e, w1) ->
  console w1 = console w /\
  (fs w1 = fs w \/ cls e = TypeError) /\
  ((exists w0, load pd archivo_entrada w = (Raise e, w0))
   \/ exists df w0, load pd archivo_entrada w = (Ok df, w0) /\
        (normalized pd (now_iso w) df = Raise e
         \/ exists df', normalized pd (now_iso w) df = Ok df' /\
              (issubclass (cls e) OSError = true \/ cls e = TypeError))).
Proof.
  intros Hrun. apply try_body_inv in Hrun as (rl & w0 & Hload & Hrest).
  pose proof (load_effect _ _ _ _ _ Hload) as (Hfs & Hcon & _).
  destruct rl as [df|e0].
  - destruct (normalized pd (now_iso w) df) as [df'|e0] eqn:Hnorm.
    + destruct Hrest as [(e1 & [= <-] & Hsub & Hfs1 & Hcon1)
                        |[(e1 & [= <-] & Hty & Hcon1)|([=] & _)]].
      * split_and!; eauto 10.
      * split_and!; eauto 10.
    + destruct Hrest as ([= <-] & ->). split_and!; eauto 10.
  - destruct Hrest as ([= <-] & ->). split_and!; eauto.
Qed.

(** A run that reports [Success]: the table was loaded and normalised, and
    the document built from it is on disk. *)
Lemma script_success_inv w w' :
  script pd archivo_entrada archivo_salida w = (Ok Success, w') ->
  exists df df' rd,
    (load pd archivo_entrada w).1 = Ok df /\
    normalized pd (now_iso w) df = Ok df' /\
    doc_serializable (document_of archivo_entrada (now_iso w) df') = true /\
    fs w' = <[archivo_salida :=
                File rd true (JsonText (document_of archivo_entrada (now_iso w) df'))]>
              (fs w) /\
    console w' = (console w ++ [start_line archivo_entrada;
                                final_line archivo_entrada archivo_salida Success])%list.
Proof.
  rewrite script_eq. intros Hrun.
  destruct (try_body _ _ _ _) as [[o|e] w1] eqn:Hbody.
  - injection Hrun as -> ->.
    apply try_body_inv in Hbody as (rl & w0 & Hload & Hrest).
    assert (Hl : (load pd archivo_entrada w).1 = rl)
      by (by rewrite <- (load_printed w (start_line archivo_entrada)), Hload).
    simpl in Hrest.
    destruct rl as [df|e0]; [|by destruct Hrest].
    destruct (normalized pd (now_iso w) df) as [df'|e0] eqn:Hnorm; [|by destruct Hrest].
    destruct Hrest as [(e1 & [=] & _)|[(e1 & [=] & _)|(_ & Hser & Hcon & rd & Hfs)]].
    exists df, df', rd. split_and!; trivial.
    simpl in Hcon. rewrite Hcon, <- app_assoc. reflexivity.
  - unfold classify in Hrun.
    repeat match type of Hrun with
           | context [if ?b then _ else _] => destruct b
           end; discriminate.
Qed.

(** The body never returns anything but [Success]. *)
Lemma try_body_ok w o w1 :
  try_body pd archivo_entrada archivo_salida w = (Ok o, w1) -> o = Success.
Proof.
  intros Hrun. apply try_body_inv in Hrun as (rl & w0 & Hload & Hrest).
  destruct rl as [df|e0]; [|by destruct Hrest].
  destruct (normalized pd (now_iso w) df) as [df'|e0]; [|by destruct Hrest].
  destruct Hrest as [(e1 & [=] & _)|[(e1 & [=] & _)|([= ->] & _)]]. done.
Qed.

(** A run that does not report [Success] went through exactly one clause. *)
Lemma script_failure_inv w r w' :
  script pd archivo_entrada archivo_salida w = (r, w') ->
  r <> Ok Success ->
  exists e w1,
    try_body pd archivo_entrada archivo_salida
      (printed w (start_line archivo_entrada)) = (Raise e, w1) /\
    console w1 = (console w ++ [start_line archivo_entrada])%list /\
    (fs w1 = fs w \/ cls e = TypeError) /\
    match classify e with
    | Ok o => r = Ok o /\
              w' = printed w1 (final_line archivo_entrada archivo_salida o)
    | Raise _ => r = Raise e /\ w' = w1
    end.
Proof.
  rewrite script_eq. intros Hrun Hfail.
  destruct (try_body _ _ _ _) as [[o|e] w1] eqn:Hbody.
  - injection Hrun as <- <-. apply try_body_ok in Hbody as ->. done.
  - exists e, w1. pose proof (try_body_raise _ _ _ Hbody) as (Hcon & Hfs & _).
    split_and!; trivial.
    destruct (classify e); by injection Hrun as <- <-.
Qed.

(** The outcome a clause reports is a failure, never [Success]. *)
Lemma classify_failure e o : classify e = Ok o -> is_failure o = true.
Proof.
  unfold classify.
  repeat match goal with
         | |- context [if ?b then _ else _] => destruct b
         end; intros [= <-]; reflexivity.
Qed.

End RunFacts.

(** ** Running forward *)

Section Forward.

Variable pd : Pandas.
Variables archivo_entrada archivo_salida : string.

(** An extension that is neither [.xlsx] nor [.csv]: the run is the start
    line followed by the format message, and nothing else. *)
Lemma script_unsupported w :
  extension_of archivo_entrada <> ".xlsx" ->
  extension_of archivo_entrada <> ".csv" ->
  script pd archivo_entrada archivo_salida w =
    (Ok (FormatError unsupported_msg),
     printed (printed w (start_line archivo_entrada))
             (final_line archivo_entrada archivo_salida (FormatError unsupported_msg))).
Proof.
  intros Hx Hc. rewrite script_eq. unfold try_body, bind.
  rewrite load_unsupported by assumption. reflexivity.
Qed.

(** Enough for the body to succeed: the table loads and normalises, its
    cells can be encoded, and the output path holds a writable file. *)
Lemma try_body_success w df df' rd c :
  (load pd archivo_entrada w).1 = Ok df ->
  normalized pd (now_iso w) df = Ok df' ->
  doc_serializable (document_of archivo_entrada (now_iso w) df') = true ->
  fs w !! archivo_salida = Some (File rd true c) ->
  exists w',
    try_body pd archivo_entrada archivo_salida w = (Ok Success, w') /\
    fs w' = <[archivo_salida :=
                File rd true (JsonText (document_of archivo_entrada (now_iso w) df'))]>
              (fs w).
Proof.
  intros Hload Hnorm Hser Hfile. unfold try_body, bind.
  destruct (load pd archivo_entrada w) as [rl w0] eqn:Hl. simpl in Hload. subst rl.
  apply load_effect in Hl as (Hfs & Hcon & Hnow).
  rewrite normalize_eq, Hnow, Hnorm, assemble_eq. rewrite Hnow.
  match goal with
  | |- context [write archivo_salida ?d ?w1] =>
      destruct (write_existing archivo_salida d w1 rd c) as (w4 & -> & Hc4 & Hfs4)
  end; [simpl; by rewrite Hfs | done |].
  eexists. split; [reflexivity|]. simpl. rewrite Hfs4. simpl. by rewrite Hfs.
Qed.

End Forward.

(** ** Failures before the write *)

Section EarlyFailures.

Variable pd : Pandas.
Variables archivo_entrada archivo_salida : string.

(** When the date column does not convert, the run ends in the clause the
    exception selects and no file changes. *)
Lemma bad_date_stops_run w df e r w' :
  (load pd archivo_entrada w).1 = Ok df ->
  normalized pd (now_iso w) df = Raise e ->
  script pd archivo_entrada archivo_salida w = (r, w') ->
  r = classify e /\ r <> Ok Success /\ fs w' = fs w.
Proof.
  intros Hload Hnorm. rewrite script_eq. unfold try_body, bind.
  destruct (load pd archivo_entrada (printed w (start_line archivo_entrada)))
    as [rl w0] eqn:Hl.
  assert (rl = Ok df) as ->
    by (by rewrite <- Hload, <- (load_printed pd archivo_entrada w
                                  (start_line archivo_entrada)), Hl).
  apply load_effect in Hl as (Hfs & _ & Hnow). simpl in Hnow.
  rewrite normalize_eq, Hnow, Hnorm.
  destruct (classify e) as [o|e'] eqn:Hcl; intros [= <- <-]; simpl;
    split_and!; trivial; try discriminate.
  - intros [= ->]. by apply classify_failure in Hcl.
  - unfold classify in Hcl.
    repeat match type of Hcl with
           | context [if ?b then _ else _] => destruct b
           end; congruence.
Qed.

End EarlyFailures.

(** ** The sample files *)

Example read_csv_ventas : Ref.read_csv_text Ref.csv_ventas = Ok Ref.tabla_ventas.
Proof. vm_compute. reflexivity. Qed.

Example read_csv_simple : Ref.read_csv_text Ref.csv_simple = Ok Ref.tabla_simple.
Proof. vm_compute. reflexivity. Qed.

Example read_csv_mala : Ref.read_csv_text Ref.csv_mala = Ok Ref.tabla_mala.
Proof. vm_compute. reflexivity. Qed.

Example read_csv_hoy : Ref.read_csv_text Ref.csv_hoy = Ok Ref.tabla_hoy.
Proof. vm_compute. reflexivity. Qed.

Example read_csv_sin_fecha :
  Ref.read_csv_text Ref.csv_sin_fecha = Ok Ref.tabla_sin_fecha.
Proof. vm_compute. reflexivity. Qed.

Example splitext_samples :
  splitext "datos_prueba.csv" = ("datos_prueba", ".csv")
  /\ splitext "foo.txt" = ("foo", ".txt")
  /\ splitext "DATOS.CSV" = ("DATOS", ".CSV")
  /\ splitext "datos" = ("datos", "")
  /\ splitext ".csv" = (".csv", "")
  /\ splitext "carpeta.v2/datos" = ("carpeta.v2/datos", "")
  /\ splitext "copia.tar.xlsx" = ("copia.tar", ".xlsx").
Proof. vm_compute. auto 10. Qed.

(** * The claims *)

(** ** C1: failures are caught and printed; the exit status *)

(** C1, as stated, fails: the run on [foo.txt] ends in a failure outcome,
    yet the status handed to the caller is [0], not a failure status. *)
Lemma C1_failure_exits_with_zero :
  let run := script Ref.pandas "foo.txt" "salida.json"
               (Ref.world ∅ "2026-01-01T10:00:00") in
  outcome_of run.1 = Some (FormatError unsupported_msg)
  /\ is_failure (FormatError unsupported_msg) = true
  /\ exit_status run.1 = 0.
Proof. vm_compute. auto. Qed.

(** C1 (amended): every run that ends in a failure outcome was caught by
    one of the three clauses and reported as one console line after the
    start line, and the process then ends normally, with exit status 0. *)
Theorem C1_failure_caught_and_printed pd archivo_entrada archivo_salida w r w' o :
  script pd archivo_entrada archivo_salida w = (r, w') ->
  outcome_of r = Some o ->
  is_failure o = true ->
  console w' = (console w ++ [start_line archivo_entrada;
                              final_line archivo_entrada archivo_salida o])%list
  /\ exit_status r = 0.
Proof.
  intros Hrun Hout Hfail.
  destruct r as [o'|e]; [|discriminate]. injection Hout as ->.
  split; [|reflexivity].
  apply script_failure_inv in Hrun as (e & w1 & _ & Hcon & _ & Hcl);
    [|intros [= ->]; discriminate].
  destruct (classify e) as [o'|]; destruct Hcl as [Hr ->]; [|discriminate].
  injection Hr as ->. simpl. rewrite Hcon, <- app_assoc. reflexivity.
Qed.

Lemma C1_failure_caught_and_printed_witness :
  console (script Ref.pandas "foo.csv" "salida.json"
             (Ref.world ∅ "2026-01-01T10:00:00")).2
  = [start_line "foo.csv"; final_line "foo.csv" "salida.json" InputNotFound]
  /\ exit_status (Ok InputNotFound) = 0.
Proof.
  apply (C1_failure_caught_and_printed Ref.pandas "foo.csv" "salida.json"
           (Ref.world ∅ "2026-01-01T10:00:00") (Ok InputNotFound) _ InputNotFound).
  - vm_compute. reflexivity.
  - reflexivity.
  - reflexivity.
Defined.

(** ** C2: which failures are reported as a missing input *)

(** C2: the input file exists and loads, the directory of the output path
    does not exist; [open] raises [FileNotFoundError] and the run reports
    the input file as missing. *)
Theorem C2_write_failure_reported_as_missing_input :
  let files : gmap string node :=
    {[ "datos_prueba.csv" := Ref.readable Ref.csv_simple ]} in
  let run := script Ref.pandas "datos_prueba.csv" "informes/salida.json"
               (Ref.world files "2026-01-01T10:00:00") in
  files !! "datos_prueba.csv" = Some (Ref.readable Ref.csv_simple)
  /\ (load Ref.pandas "datos_prueba.csv"
        (Ref.world files "2026-01-01T10:00:00")).1 = Ok Ref.tabla_simple
  /\ files !! "informes" = None
  /\ run.1 = Ok InputNotFound
  /\ console run.2 =
       [ "Iniciando la conversión de 'datos_prueba.csv'...";
         "Error: No se encontró el archivo 'datos_prueba.csv'. Asegúrate de que esté en la misma carpeta." ]
  /\ calls run.2 =
       [ CallReadCsv "datos_prueba.csv" "latin-1"; CallNow;
         CallOpenW "informes/salida.json" "utf-8" ].
Proof. vm_compute. auto 10. Qed.

(** ** C3: the record count *)

(** C3: after a successful run on a table of N rows, the document at the
    output path has [registros_procesados] = N and N elements in [datos]. *)
Theorem C3_record_count pd archivo_entrada archivo_salida w w' :
  script pd archivo_entrada archivo_salida w = (Ok Success, w') ->
  exists df doc,
    (load pd archivo_entrada w).1 = Ok df /\
    document_at (fs w') archivo_salida = Some doc /\
    registros_procesados (metadata doc) = length (rows df) /\
    length (datos doc) = length (rows df) /\
    registros_procesados (metadata doc) = length (datos doc).
Proof.
  intros Hrun.
  apply script_success_inv in Hrun as (df & df' & rd & Hload & Hnorm & _ & Hfs & _).
  exists df, (document_of archivo_entrada (now_iso w) df').
  split_and!; trivial.
  - unfold document_at. by rewrite Hfs, lookup_insert_eq.
  - simpl. rewrite to_dict_records_length. by eapply normalized_length.
  - simpl. rewrite to_dict_records_length. by eapply normalized_length.
Qed.

Lemma C3_record_count_witness :
  exists df doc,
    (load Ref.pandas "datos_prueba.csv"
       (Ref.world {[ "datos_prueba.csv" := Ref.readable Ref.csv_ventas ]}
                  "2026-01-01T10:00:00")).1 = Ok df /\
    document_at
      (fs (script Ref.pandas "datos_prueba.csv" "salida.json"
             (Ref.world {[ "datos_prueba.csv" := Ref.readable Ref.csv_ventas ]}
                        "2026-01-01T10:00:00")).2)
      "salida.json" = Some doc /\
    registros_procesados (metadata doc) = length (rows df) /\
    length (datos doc) = length (rows df) /\
    registros_procesados (metadata doc) = length (datos doc).
Proof.
  apply (C3_record_count Ref.pandas "datos_prueba.csv" "salida.json").
  vm_compute. reflexivity.
Defined.


(** ** C4: the purchase-date column *)

(** What a successful run stores for row [i]: the dictionary zipped from
    the normalised row. *)
Lemma success_row pd archivo_entrada archivo_salida w w' df i r :
  script pd archivo_entrada archivo_salida w = (Ok Success, w') ->
  (load pd archivo_entrada w).1 = Ok df ->
  wf_frame df ->
  rows df !! i = Some r ->
  exists r',
    (forall c, output_cell (fs w') archivo_salida i c = dict_zip (columns df) r' !! c) /\
    length r' = length (columns df) /\
    (forall j, columns df !! j <> Some "Fecha_Compra" -> r' !! j = r !! j) /\
    (forall jf, index_of "Fecha_Compra" (columns df) = Some jf ->
                exists fechas t,
                  to_datetime pd (now_iso w) (getitem df "Fecha_Compra") = Ok fechas /\
                  fechas !! i = Some t /\
                  r' !! jf = Some (strftime_cell pd t)).
Proof.
  intros Hrun Hload [Hnd Hwidth] Hr.
  apply script_success_inv in Hrun as (df0 & df' & rd & Hload0 & Hnorm & _ & Hfs & _).
  rewrite Hload in Hload0. injection Hload0 as <-.
  destruct (normalized_row pd (now_iso w) df df' i r Hnorm Hr)
    as (r' & Hr' & Hlen & Hother & Hdate).
  assert (Hwide : length r = length (columns df))
    by (eapply (proj1 (Forall_lookup _ _) Hwidth); eauto).
  exists r'.
  split_and!; trivial.
  - intros c. unfold output_cell, document_at.
    rewrite Hfs, lookup_insert_eq. simpl. unfold to_dict_records.
    rewrite list_lookup_fmap, Hr'. simpl.
    by rewrite (normalized_columns pd (now_iso w) df df').
  - by rewrite Hlen.
  - intros jf Hjf. destruct (Hdate jf Hjf) as (fechas & t & Hto & Ht & ->).
    exists fechas, t. split_and!; trivial.
    apply list_lookup_insert_eq. rewrite Hwide.
    eapply lookup_lt_Some. by apply index_of_lookup.
Qed.

(** C4, as stated, fails: the loaded table has a [Fecha_Compra] column
    whose second cell is missing; the run succeeds and that cell is
    written as a missing value, not as a [YYYY-MM-DD] text. *)
Lemma C4_missing_date_stays_missing :
  let files : gmap string node :=
    {[ "datos_prueba.csv" := Ref.readable Ref.csv_ventas ]} in
  let run := script Ref.pandas "datos_prueba.csv" "salida.json"
               (Ref.world files "2026-01-01T10:00:00") in
  has_column "Fecha_Compra" Ref.tabla_ventas = true
  /\ (load Ref.pandas "datos_prueba.csv"
        (Ref.world files "2026-01-01T10:00:00")).1 = Ok Ref.tabla_ventas
  /\ run.1 = Ok Success
  /\ cell Ref.tabla_ventas [VStr "Ruiz"; VNull; VInt 80] "Fecha_Compra" = Some VNull
  /\ output_cell (fs run.2) "salida.json" 1 "Fecha_Compra" = Some VNull.
Proof. vm_compute; auto 10. Qed.

(** C4 (amended): in a successful run on a table with a [Fecha_Compra]
    column, every cell of that column that [pd.to_datetime] converts to
    a date is written as the [%Y-%m-%d] text of that date, which for a
    calendar date with a four-digit year is its canonical form
    [YYYY-MM-DD]; a cell that [pd.to_datetime] converts to [NaT] is
    written as a missing value. *)
Theorem C4_dates_canonical_or_missing
    pd archivo_entrada archivo_salida w w' df fechas i t :
  script pd archivo_entrada archivo_salida w = (Ok Success, w') ->
  (load pd archivo_entrada w).1 = Ok df ->
  wf_frame df ->
  has_column "Fecha_Compra" df = true ->
  to_datetime pd (now_iso w) (getitem df "Fecha_Compra") = Ok fechas ->
  fechas !! i = Some t ->
  match t with
  | None => output_cell (fs w') archivo_salida i "Fecha_Compra" = Some VNull
  | Some d =>
      output_cell (fs w') archivo_salida i "Fecha_Compra"
        = Some (VStr (format_Ymd pd d)) /\
      (calendar_date d = true ->
       format_Ymd pd d = strftime_Ymd d /\
       is_canonical (strftime_Ymd d) = true /\
       read_Ymd (strftime_Ymd d) = Some d)
  end.
Proof.
  intros Hrun Hload Hwf Hhas Hto Ht.
  pose proof (converted_length pd (now_iso w) df fechas Hhas Hto) as Hlen.
  destruct (lookup_lt_is_Some_2 (rows df) i) as (r & Hr);
    [rewrite <- Hlen; by eapply lookup_lt_Some|].
  destruct (success_row _ _ _ _ _ _ _ _ Hrun Hload Hwf Hr)
    as (r' & Hout & Hwide & _ & Hdate).
  destruct (has_column_index _ _ Hhas) as (jf & Hjf).
  destruct (Hdate jf Hjf) as (fechas0 & t0 & Hto0 & Ht0 & Hcell).
  rewrite Hto in Hto0. injection Hto0 as <-.
  rewrite Ht in Ht0. injection Ht0 as <-.
  assert (Hlook : output_cell (fs w') archivo_salida i "Fecha_Compra"
                  = Some (strftime_cell pd t)).
  { rewrite Hout. destruct Hwf as [Hnd _].
    eapply dict_zip_lookup; eauto using index_of_lookup. }
  destruct t as [d|]; cbn [strftime_cell] in Hlook; [|done].
  split; [done|]. intros Hcal.
  split_and!; auto using format_Ymd_calendar, strftime_canonical, read_strftime.
Qed.

Lemma C4_dates_canonical_or_missing_witness :
  output_cell
    (fs (script Ref.pandas "datos_prueba.csv" "salida.json"
           (Ref.world {[ "datos_prueba.csv" := Ref.readable Ref.csv_ventas ]}
                      "2026-01-01T10:00:00")).2)
    "salida.json" 0 "Fecha_Compra"
    = Some (VStr (format_Ymd Ref.pandas (mkDate 2024 3 15))) /\
  (calendar_date (mkDate 2024 3 15) = true ->
   format_Ymd Ref.pandas (mkDate 2024 3 15) = strftime_Ymd (mkDate 2024 3 15) /\
   is_canonical (strftime_Ymd (mkDate 2024 3 15)) = true /\
   read_Ymd (strftime_Ymd (mkDate 2024 3 15)) = Some (mkDate 2024 3 15)).
Proof.
  apply (C4_dates_canonical_or_missing Ref.pandas "datos_prueba.csv" "salida.json"
           (Ref.world {[ "datos_prueba.csv" := Ref.readable Ref.csv_ventas ]}
                      "2026-01-01T10:00:00")
           _ Ref.tabla_ventas [Some (mkDate 2024 3 15); None] 0%nat
           (Some (mkDate 2024 3 15))).
  - vm_compute. reflexivity.
  - vm_compute. reflexivity.
  - split; [|by repeat constructor].
    apply (bool_decide_unpack _). vm_compute. exact I.
  - vm_compute. reflexivity.
  - vm_compute. reflexivity.
  - reflexivity.
Defined.

(** Whatever the parser, a cell that [pd.to_datetime] reads as the 15th of
    March 2024 is written as exactly [2024-03-15]. *)
Example fecha_2024_03_15 pd archivo_entrada archivo_salida w w' df fechas i :
  script pd archivo_entrada archivo_salida w = (Ok Success, w') ->
  (load pd archivo_entrada w).1 = Ok df ->
  wf_frame df ->
  has_column "Fecha_Compra" df = true ->
  to_datetime pd (now_iso w) (getitem df "Fecha_Compra") = Ok fechas ->
  fechas !! i = Some (Some (mkDate 2024 3 15)) ->
  output_cell (fs w') archivo_salida i "Fecha_Compra" = Some (VStr "2024-03-15").
Proof.
  intros Hrun Hload Hwf Hhas Hto Ht.
  pose proof (converted_length pd (now_iso w) df fechas Hhas Hto) as Hlen.
  destruct (lookup_lt_is_Some_2 (rows df) i) as (r & Hr);
    [rewrite <- Hlen; by eapply lookup_lt_Some|].
  destruct (success_row _ _ _ _ _ _ _ _ Hrun Hload Hwf Hr)
    as (r' & Hout & Hwide & _ & Hdate).
  destruct (has_column_index _ _ Hhas) as (jf & Hjf).
  destruct (Hdate jf Hjf) as (fechas0 & t0 & Hto0 & Ht0 & Hcell).
  rewrite Hto in Hto0. injection Hto0 as <-.
  rewrite Ht in Ht0. injection Ht0 as <-.
  rewrite Hout. destruct Hwf as [Hnd _].
  cbn [strftime_cell] in Hcell.
  rewrite (format_Ymd_calendar pd (mkDate 2024 3 15) eq_refl) in Hcell.
  eapply dict_zip_lookup; eauto using index_of_lookup.
Qed.

(** On the sample file, read with the reference parser: the cell
    [03/15/2024] is written as [2024-03-15]. *)
Example fecha_03_15_2024 :
  output_cell
    (fs (script Ref.pandas "datos_prueba.csv" "salida.json"
           (Ref.world {[ "datos_prueba.csv" := Ref.readable Ref.csv_ventas ]}
                      "2026-01-01T10:00:00")).2)
    "salida.json" 0 "Fecha_Compra" = Some (VStr "2024-03-15").
Proof. vm_compute. reflexivity. Qed.

(** ** C5: format detection *)

(** C5: the extension that [splitext] extracts is compared, character by
    character, with [.xlsx] and [.csv]: the first selects the Excel
    reader, the second the CSV reader, and anything else (no extension,
    another case) ends the run with the format message. *)
Theorem C5_format_detection pd archivo_entrada archivo_salida w :
  (extension_of archivo_entrada = ".xlsx" ->
   load pd archivo_entrada w = read_excel pd archivo_entrada w)
  /\ (extension_of archivo_entrada = ".csv" ->
      load pd archivo_entrada w = read_csv pd archivo_entrada "latin-1" w)
  /\ (extension_of archivo_entrada <> ".xlsx" ->
      extension_of archivo_entrada <> ".csv" ->
      exists w',
        script pd archivo_entrada archivo_salida w
          = (Ok (FormatError unsupported_msg), w')
        /\ calls w' = calls w).
Proof.
  split_and!.
  - apply load_xlsx.
  - apply load_csv.
  - intros Hx Hc. eexists. split; [by apply script_unsupported|reflexivity].
Qed.

Lemma C5_format_detection_witness :
  let w := Ref.world {[ "libro.xlsx" := Ref.readable Ref.csv_simple;
                        "datos.csv" := Ref.readable Ref.csv_simple;
                        "DATOS.CSV" := Ref.readable Ref.csv_simple ]}
                     "2026-01-01T10:00:00" in
  load Ref.pandas "libro.xlsx" w = read_excel Ref.pandas "libro.xlsx" w
  /\ load Ref.pandas "datos.csv" w = read_csv Ref.pandas "datos.csv" "latin-1" w
  /\ (exists w', script Ref.pandas "DATOS.CSV" "salida.json" w
                 = (Ok (FormatError unsupported_msg), w') /\ calls w' = calls w)
  /\ (exists w', script Ref.pandas "datos" "salida.json" w
                 = (Ok (FormatError unsupported_msg), w') /\ calls w' = calls w).
Proof.
  intros w. split_and!.
  - apply (C5_format_detection Ref.pandas "libro.xlsx" "salida.json" w).
    vm_compute. reflexivity.
  - apply (C5_format_detection Ref.pandas "datos.csv" "salida.json" w).
    vm_compute. reflexivity.
  - apply (C5_format_detection Ref.pandas "DATOS.CSV" "salida.json" w);
      vm_compute; discriminate.
  - apply (C5_format_detection Ref.pandas "datos" "salida.json" w);
      vm_compute; discriminate.
Defined.

(** ** C6: failures that leave the output alone *)



(** ** C7: a purchase date that is not a date *)

(** C7: the second row holds the text [no-es-fecha] in [Fecha_Compra].
    [pd.to_datetime] raises a [ValueError] subclass, so the run is taken by
    the [except ValueError] clause and reported as a format error; no file
    is written. *)
Theorem C7_bad_date_reported_as_format_error :
  let files : gmap string node :=
    {[ "datos_prueba.csv" := Ref.readable Ref.csv_mala ]} in
  let run := script Ref.pandas "datos_prueba.csv" "salida.json"
               (Ref.world files "2026-01-01T10:00:00") in
  (load Ref.pandas "datos_prueba.csv"
     (Ref.world files "2026-01-01T10:00:00")).1 = Ok Ref.tabla_mala
  /\ cell Ref.tabla_mala [VStr "Luis"; VStr "no-es-fecha"] "Fecha_Compra"
     = Some (VStr "no-es-fecha")
  /\ run.1 = Ok (FormatError
                   "Unknown datetime string format, unable to parse: no-es-fecha")
  /\ console run.2 =
       [ "Iniciando la conversión de 'datos_prueba.csv'...";
         "Error de formato: Unknown datetime string format, unable to parse: no-es-fecha" ]
  /\ fs run.2 = files.
Proof. vm_compute. auto 10. Qed.

(** ** C8: the other columns *)

(** C8: in a successful run, every column other than [Fecha_Compra] is
    present in every output row with the cell that was loaded, whether or
    not the table has a [Fecha_Compra] column. *)
Theorem C8_other_columns_pass_through
    pd archivo_entrada archivo_salida w w' df c i r :
  script pd archivo_entrada archivo_salida w = (Ok Success, w') ->
  (load pd archivo_entrada w).1 = Ok df ->
  wf_frame df ->
  c ∈ columns df ->
  c <> "Fecha_Compra" ->
  rows df !! i = Some r ->
  exists v,
    cell df r c = Some v /\
    output_cell (fs w') archivo_salida i c = Some v.
Proof.
  intros Hrun Hload Hwf Hc Hne Hr.
  destruct (success_row _ _ _ _ _ _ _ _ Hrun Hload Hwf Hr)
    as (r' & Hout & Hlen & Hother & _).
  destruct Hwf as [Hnd Hwidth].
  destruct (index_of_elem _ _ Hc) as (j & Hj).
  pose proof (index_of_lookup _ _ _ Hj) as Hcol.
  assert (Hrlen : length r = length (columns df))
    by (eapply (proj1 (Forall_lookup _ _) Hwidth); eauto).
  destruct (lookup_lt_is_Some_2 r j) as (v & Hv);
    [rewrite Hrlen; by eapply lookup_lt_Some|].
  exists v. unfold cell. rewrite Hj. split; [done|].
  rewrite Hout. eapply dict_zip_lookup; eauto.
  rewrite Hother; [done|]. rewrite Hcol. congruence.
Qed.

Lemma C8_other_columns_pass_through_witness :
  exists v,
    cell Ref.tabla_ventas [VStr "Ruiz"; VNull; VInt 80] "Monto" = Some v /\
    output_cell
      (fs (script Ref.pandas "datos_prueba.csv" "salida.json"
             (Ref.world {[ "datos_prueba.csv" := Ref.readable Ref.csv_ventas ]}
                        "2026-01-01T10:00:00")).2)
      "salida.json" 1 "Monto" = Some v.
Proof.
  apply (C8_other_columns_pass_through Ref.pandas "datos_prueba.csv" "salida.json"
           (Ref.world {[ "datos_prueba.csv" := Ref.readable Ref.csv_ventas ]}
                      "2026-01-01T10:00:00")
           _ Ref.tabla_ventas "Monto" 1%nat).
  - vm_compute. reflexivity.
  - vm_compute. reflexivity.
  - split; [|by repeat constructor].
    apply (bool_decide_unpack _). vm_compute. exact I.
  - apply (bool_decide_unpack _). vm_compute. exact I.
  - discriminate.
  - vm_compute. reflexivity.
Defined.

(** A table without the date column goes through as well. *)
Example monto_sin_fecha :
  output_cell
    (fs (script Ref.pandas "datos_prueba.csv" "salida.json"
           (Ref.world {[ "datos_prueba.csv" := Ref.readable Ref.csv_sin_fecha ]}
                      "2026-01-01T10:00:00")).2)
    "salida.json" 0 "Monto" = Some (VInt 5).
Proof. vm_compute. reflexivity. Qed.

(** ** C9: running twice *)

(** C9, as stated, fails: the only purchase date of the file is the text
    [today].  Both runs succeed on the same, untouched input file, and
    the date written is the day of each run: the two [datos] differ. *)
Lemma C9_relative_date_changes_datos :
  let w := Ref.world {[ "datos_prueba.csv" := Ref.readable Ref.csv_hoy ]}
                     "2026-01-01T10:00:00" in
  let run1 := script Ref.pandas "datos_prueba.csv" "salida.json" w in
  let run2 := script Ref.pandas "datos_prueba.csv" "salida.json"
                (at_time run1.2 "2026-01-02T18:30:00") in
  (load Ref.pandas "datos_prueba.csv" w).1 = Ok Ref.tabla_hoy
  /\ run1.1 = Ok Success /\ run2.1 = Ok Success
  /\ fs run1.2 !! "datos_prueba.csv" = fs w !! "datos_prueba.csv"
  /\ output_cell (fs run1.2) "salida.json" 0 "Fecha_Compra"
     = Some (VStr "2026-01-01")
  /\ output_cell (fs run2.2) "salida.json" 0 "Fecha_Compra"
     = Some (VStr "2026-01-02")
  /\ option_map datos (document_at (fs run1.2) "salida.json")
     <> option_map datos (document_at (fs run2.2) "salida.json").
Proof.
  split_and!; try (vm_compute; reflexivity).
  intros Heq.
  pose proof (f_equal (fun o => match o with
                                | Some (row :: _) => row !! "Fecha_Compra"
                                | _ => None
                                end) Heq) as Hcell.
  vm_compute in Hcell. discriminate.
Qed.

(** C9 (amended): after a successful run, a second run at a later time on
    the same input and output paths, for which the purchase-date column
    converts to the same dates as at the first run, succeeds too, and
    the two documents have the same [datos]; they agree on everything
    but [fecha_conversion]. *)
Theorem C9_rerun_same_datos
    pd archivo_entrada archivo_salida w w1 now2 r2 w2 :
  archivo_entrada <> archivo_salida ->
  script pd archivo_entrada archivo_salida w = (Ok Success, w1) ->
  (forall df,
     (load pd archivo_entrada w).1 = Ok df ->
     to_datetime pd now2 (getitem df "Fecha_Compra")
     = to_datetime pd (now_iso w) (getitem df "Fecha_Compra")) ->
  script pd archivo_entrada archivo_salida (at_time w1 now2) = (r2, w2) ->
  r2 = Ok Success /\
  exists d1 d2,
    document_at (fs w1) archivo_salida = Some d1 /\
    document_at (fs w2) archivo_salida = Some d2 /\
    datos d1 = datos d2 /\
    without_timestamp d1 = without_timestamp d2 /\
    fecha_conversion (metadata d1) = now_iso w /\
    fecha_conversion (metadata d2) = now2.
Proof.
  intros Hne Hrun1 Hsame Hrun2.
  apply script_success_inv in Hrun1 as (df & df' & rd & Hload & Hnorm & Hser & Hfs1 & _).
  rewrite script_eq in Hrun2.
  assert (Hnorm2 : normalized pd now2 df = Ok df').
  { rewrite <- Hnorm. unfold normalized.
    destruct (has_column "Fecha_Compra" df); [|reflexivity].
    by rewrite (Hsame df Hload). }
  destruct (try_body_success pd archivo_entrada archivo_salida
              (printed (at_time w1 now2) (start_line archivo_entrada))
              df df' rd
              (JsonText (document_of archivo_entrada (now_iso w) df')))
    as (w3 & Hbody & Hfs3).
  - rewrite <- Hload. apply load_result_same; simpl.
    + rewrite Hfs1. by apply lookup_insert_ne.
    + intros Hnone. by destruct (load_ok_exists pd archivo_entrada w df Hload).
  - exact Hnorm2.
  - exact Hser.
  - simpl. rewrite Hfs1. apply lookup_insert_eq.
  - rewrite Hbody in Hrun2. injection Hrun2 as <- <-.
    split; [reflexivity|].
    exists (document_of archivo_entrada (now_iso w) df'),
           (document_of archivo_entrada now2 df').
    unfold document_at. rewrite Hfs3, Hfs1, !lookup_insert_eq.
    split_and!; reflexivity.
Qed.

Lemma C9_rerun_same_datos_witness :
  let w := Ref.world {[ "datos_prueba.csv" := Ref.readable Ref.csv_ventas ]}
                     "2026-01-01T10:00:00" in
  let w1 := (script Ref.pandas "datos_prueba.csv" "salida.json" w).2 in
  let run2 := script Ref.pandas "datos_prueba.csv" "salida.json"
                (at_time w1 "2026-01-02T18:30:00") in
  run2.1 = Ok Success /\
  exists d1 d2,
    document_at (fs w1) "salida.json" = Some d1 /\
    document_at (fs run2.2) "salida.json" = Some d2 /\
    datos d1 = datos d2 /\
    without_timestamp d1 = without_timestamp d2 /\
    fecha_conversion (metadata d1) = "2026-01-01T10:00:00" /\
    fecha_conversion (metadata d2) = "2026-01-02T18:30:00".
Proof.
  intros w w1 run2.
  apply (C9_rerun_same_datos Ref.pandas "datos_prueba.csv" "salida.json" w w1
           "2026-01-02T18:30:00" run2.1 run2.2).
  - discriminate.
  - vm_compute. reflexivity.
  - intros df Hload. vm_compute in Hload. injection Hload as <-.
    vm_compute. reflexivity.
  - vm_compute. reflexivity.
Defined.

(** ** C10: detection comes before the file system *)

(** C10: with an extension that is neither [.xlsx] nor [.csv] the run ends
    in the format error without a single library call and without
    touching a file, whether or not the input path exists; so a run that
    reports a missing input had one of the two extensions. *)
Theorem C10_detection_before_filesystem
    pd archivo_entrada archivo_salida w r w' :
  script pd archivo_entrada archivo_salida w = (r, w') ->
  (extension_of archivo_entrada <> ".xlsx" ->
   extension_of archivo_entrada <> ".csv" ->
   r = Ok (FormatError unsupported_msg) /\ calls w' = calls w /\ fs w' = fs w)
  /\ (r = Ok InputNotFound ->
      extension_of archivo_entrada = ".xlsx" \/ extension_of archivo_entrada = ".csv").
Proof.
  intros Hrun.
  assert (Hpart : extension_of archivo_entrada <> ".xlsx" ->
                  extension_of archivo_entrada <> ".csv" ->
                  r = Ok (FormatError unsupported_msg)
                  /\ calls w' = calls w /\ fs w' = fs w).
  { intros Hx Hc.
    rewrite (script_unsupported pd archivo_entrada archivo_salida w Hx Hc) in Hrun.
    by injection Hrun as <- <-. }
  split; [exact Hpart|].
  intros ->.
  destruct (decide (extension_of archivo_entrada = ".xlsx")) as [|Hx]; [by left|].
  destruct (decide (extension_of archivo_entrada = ".csv")) as [|Hc]; [by right|].
  by destruct (Hpart Hx Hc) as [[=] _].
Qed.

Lemma C10_detection_before_filesystem_witness :
  let w := Ref.world ∅ "2026-01-01T10:00:00" in
  let run := script Ref.pandas "no_existe.txt" "salida.json" w in
  fs w !! "no_existe.txt" = None
  /\ run.1 = Ok (FormatError unsupported_msg)
  /\ calls run.2 = [] /\ fs run.2 = ∅
  /\ (extension_of "no_existe.csv" = ".xlsx" \/ extension_of "no_existe.csv" = ".csv").
Proof.
  intros w run. split; [reflexivity|].
  destruct (C10_detection_before_filesystem Ref.pandas "no_existe.txt" "salida.json"
              w run.1 run.2) as [Hformat _]; [vm_compute; reflexivity|].
  destruct Hformat as (Hr & Hcalls & Hfs); [vm_compute; discriminate..|].
  split_and!; [exact Hr | exact Hcalls | exact Hfs |].
  apply (C10_detection_before_filesystem Ref.pandas "no_existe.csv" "salida.json"
           w (Ok InputNotFound)
           (script Ref.pandas "no_existe.csv" "salida.json" w).2);
    vm_compute; reflexivity.
Defined.

(** * Further properties of the script *)

(** ** The stages, with their calls *)

Section Traces.

Variable pd : Pandas.
Variables archivo_entrada archivo_salida : string.

(** The loader, by the extension. *)
Lemma load_spec w :
  load pd archivo_entrada w =
    match reader_parse pd archivo_entrada, reader_call archivo_entrada with
    | Some parse, Some c =>
        read_with parse archivo_entrada
          (mkWorld (fs w) (now_iso w) (console w) (calls w ++ [c]))
    | _, _ => (Raise (mkExc ValueError unsupported_msg), w)
    end.
Proof.
  unfold load, reader_parse, reader_call, extension_of.
  destruct (splitext archivo_entrada) as [nombre extension]; simpl.
  repeat case_bool_decide; reflexivity.
Qed.

Lemma load_calls w r w1 :
  load pd archivo_entrada w = (r, w1) ->
  calls w1 = (calls w ++ option_list (reader_call archivo_entrada))%list.
Proof.
  rewrite load_spec. unfold reader_parse, reader_call.
  repeat case_bool_decide; simpl;
    try (intros Hrun; by apply read_with_world in Hrun as ->).
  intros [= <- <-]. by rewrite app_nil_r.
Qed.

(** The body of the [try], stage by stage. *)
Lemma try_body_eq w :
  try_body pd archivo_entrada archivo_salida w =
    match load pd archivo_entrada w with
    | (Raise e, w1) => (Raise e, w1)
    | (Ok df, w1) =>
        match normalized pd (now_iso w1) df with
        | Raise e => (Raise e, w1)
        | Ok df' =>
            match write archivo_salida
                    (document_of archivo_entrada (now_iso w1) df')
                    (mkWorld (fs w1) (now_iso w1) (console w1)
                             (calls w1 ++ [CallNow])) with
            | (Raise e, w4) => (Raise e, w4)
            | (Ok _, w4) =>
                (Ok Success,
                 printed w4 (final_line archivo_entrada archivo_salida Success))
            end
        end
    end.
Proof.
  unfold try_body, bind.
  destruct (load pd archivo_entrada w) as [[df|e] w1]; [|reflexivity].
  rewrite normalize_eq.
  destruct (normalized pd (now_iso w1) df) as [df'|e]; [|reflexivity].
  rewrite assemble_eq.
  destruct (write _ _ _) as [[[]|e] w4]; reflexivity.
Qed.

(** The [with] block when the output can be opened. *)
Lemma write_openable doc w :
  openable (fs w) archivo_salida = true ->
  write archivo_salida doc w =
    (if doc_serializable doc then Ok tt
     else Raise (mkExc TypeError "Object of type Timestamp is not JSON serializable"),
     mkWorld
       (<[archivo_salida :=
            File (bits_of (fs w !! archivo_salida)).1 true
                 (if doc_serializable doc then JsonText doc else JsonPrefix doc)]>
          (fs w))
       (now_iso w) (console w)
       (calls w ++ [CallOpenW archivo_salida "utf-8"; CallJsonDump 4 false])).
Proof.
  unfold openable, write, bind, open_w, json_dump, bind, log, set_fs. simpl.
  intros Hopen.
  destruct (fs w !! archivo_salida) as [[|rd [] c]|] eqn:Hfile; try discriminate;
    simpl.
  - rewrite lookup_insert_eq. simpl.
    destruct (doc_serializable doc); simpl;
      by rewrite insert_insert_eq, <- app_assoc.
  - destruct (parent_dir archivo_salida) as [d|].
    + destruct (fs w !! d) as [[|? ? ?]|]; try discriminate. simpl.
      rewrite lookup_insert_eq. simpl.
      destruct (doc_serializable doc); simpl;
        by rewrite insert_insert_eq, <- app_assoc.
    + simpl. rewrite lookup_insert_eq. simpl.
      destruct (doc_serializable doc); simpl;
        by rewrite insert_insert_eq, <- app_assoc.
Qed.

(** The [with] block when it cannot: an [OSError] and nothing written. *)
Lemma write_not_openable doc w :
  openable (fs w) archivo_salida = false ->
  exists e,
    write archivo_salida doc w =
      (Raise e,
       mkWorld (fs w) (now_iso w) (console w)
               (calls w ++ [CallOpenW archivo_salida "utf-8"])) /\
    issubclass (cls e) OSError = true /\
    (cls e = FileNotFoundError <->
       fs w !! archivo_salida = None /\
       forall d, parent_dir archivo_salida = Some d -> fs w !! d = None).
Proof.
  unfold openable, write, bind, open_w, bind, log, set_fs. simpl.
  intros Hopen.
  destruct (fs w !! archivo_salida) as [[|rd [] c]|] eqn:Hfile; try discriminate;
    simpl.
  - eexists. split_and!; [reflexivity..|]. simpl. split; [discriminate|by intros [? _]].
  - eexists. split_and!; [reflexivity..|]. simpl. split; [discriminate|by intros [? _]].
  - destruct (parent_dir archivo_salida) as [d|]; [|discriminate].
    destruct (fs w !! d) as [[|? ? ?]|] eqn:Hd; try discriminate;
      (eexists; split_and!; [reflexivity..|]); simpl.
    + split; [discriminate|]. intros [_ Hall]. by rewrite (Hall d eq_refl) in Hd.
    + split; [intros _|done]. split; [done|]. by intros ? [= <-].
Qed.

Lemma classify_raise e e' :
  classify e = Raise e' -> e' = e /\ isinstance e Exception = false.
Proof.
  unfold classify.
  repeat match goal with
         | |- context [if ?b then _ else _] => destruct b eqn:?
         end; intros [= <-]; done.
Qed.

(** The run, read off the body of the [try]. *)
Lemma script_world w :
  let b := try_body pd archivo_entrada archivo_salida
             (printed w (start_line archivo_entrada)) in
  let run := script pd archivo_entrada archivo_salida w in
  fs run.2 = fs b.2 /\ calls run.2 = calls b.2 /\
  run.1 = match b.1 with
          | Ok o => Ok o
          | Raise e => classify e
          end.
Proof.
  simpl. rewrite script_eq.
  destruct (try_body _ _ _ _) as [[o|e] w1]; simpl; [done|].
  destruct (classify e) as [o|e'] eqn:Hcl; simpl; [done|].
  by apply classify_raise in Hcl as [-> _].
Qed.

(** What a run does, by how far the pipeline gets. *)
Lemma run_spec w :
  let run := script pd archivo_entrada archivo_salida w in
  let rc := option_list (reader_call archivo_entrada) in
  match (load pd archivo_entrada w).1 with
  | Raise e =>
      run.1 = classify e /\ fs run.2 = fs w /\ calls run.2 = (calls w ++ rc)%list
  | Ok df =>
      match normalized pd (now_iso w) df with
      | Raise e =>
          run.1 = classify e /\ fs run.2 = fs w
          /\ calls run.2 = (calls w ++ rc)%list
      | Ok df' =>
          let doc := document_of archivo_entrada (now_iso w) df' in
          if openable (fs w) archivo_salida then
            run.1 = (if doc_serializable doc then Ok Success
                     else Ok (UnexpectedError
                                "Object of type Timestamp is not JSON serializable"))
            /\ fs run.2 =
                 <[archivo_salida :=
                     File (bits_of (fs w !! archivo_salida)).1 true
                          (if doc_serializable doc then JsonText doc
                           else JsonPrefix doc)]> (fs w)
            /\ calls run.2 =
                 (calls w ++ rc ++ [CallNow; CallOpenW archivo_salida "utf-8";
                                    CallJsonDump 4 false])%list
          else
            fs run.2 = fs w
            /\ calls run.2 =
                 (calls w ++ rc ++ [CallNow; CallOpenW archivo_salida "utf-8"])%list
            /\ exists e,
                 run.1 = classify e /\ issubclass (cls e) OSError = true /\
                 (cls e = FileNotFoundError <->
                    fs w !! archivo_salida = None /\
                    forall d, parent_dir archivo_salida = Some d -> fs w !! d = None)
      end
  end.
Proof.
  intros run rc. subst run.
  destruct (script_world w) as (-> & -> & ->).
  rewrite try_body_eq.
  rewrite <- (load_printed pd archivo_entrada w (start_line archivo_entrada)).
  destruct (load pd archivo_entrada (printed w (start_line archivo_entrada)))
    as [rl w1] eqn:Hl.
  pose proof (load_effect _ _ _ _ _ Hl) as (Hfs & Hcon & Hnow).
  pose proof (load_calls _ _ _ Hl) as Hcalls.
  simpl in Hfs, Hcon, Hnow, Hcalls. fold rc in Hcalls. simpl.
  destruct rl as [df|e]; [|done].
  rewrite Hnow.
  destruct (normalized pd (now_iso w) df) as [df'|e]; [|done].
  rewrite <- Hfs.
  destruct (openable (fs w1) archivo_salida) eqn:Hopen.
  - rewrite write_openable by done.
    destruct (doc_serializable _); simpl; (split_and!; [done..|]);
      by rewrite Hcalls, <- !app_assoc.
  - match goal with
    | |- context [write archivo_salida ?d ?w2] =>
        destruct (write_not_openable d w2 Hopen) as (e & -> & Hsub & Hcls)
    end.
    simpl. split_and!; [done | by rewrite Hcalls, <- !app_assoc |].
    exists e. done.
Qed.

End Traces.

(** ** Which clause takes which exception *)

Section Clauses.

Lemma classify_value_error e :
  isinstance e ValueError = true -> classify e = Ok (FormatError (msg e)).
Proof.
  unfold classify, isinstance. destruct e as [c m]; simpl.
  destruct c; vm_compute; congruence.
Qed.

Lemma classify_os_error e :
  issubclass (cls e) OSError = true ->
  classify e = if bool_decide (cls e = FileNotFoundError) then Ok InputNotFound
               else Ok (UnexpectedError (msg e)).
Proof.
  unfold classify, isinstance. destruct e as [c m]; simpl.
  destruct c; vm_compute; congruence.
Qed.

Lemma classify_exception e :
  isinstance e Exception = true -> exists o, classify e = Ok o.
Proof.
  unfold classify. intros ->.
  repeat match goal with
         | |- context [if ?b then _ else _] => destruct b
         end; eauto.
Qed.

End Clauses.

(** ** The loader on a given file system *)

Section LoaderFacts.

Variable pd : Pandas.
Variable archivo_entrada : string.

Lemma load_result w :
  (load pd archivo_entrada w).1 =
    match reader_parse pd archivo_entrada with
    | Some parse => (read_with parse archivo_entrada w).1
    | None => Raise (mkExc ValueError unsupported_msg)
    end.
Proof.
  rewrite load_spec. unfold reader_parse, reader_call.
  repeat case_bool_decide; try reflexivity;
    unfold read_with; simpl;
    destruct (fs w !! archivo_entrada) as [[|[] ? ?]|]; try reflexivity;
    by destruct (below_file (fs w) archivo_entrada).
Qed.

Lemma reader_recognized :
  extension_of archivo_entrada = ".xlsx" \/ extension_of archivo_entrada = ".csv" ->
  exists parse c,
    reader_parse pd archivo_entrada = Some parse /\
    reader_call archivo_entrada = Some c.
Proof.
  unfold reader_parse, reader_call.
  intros [Hx|Hc]; repeat case_bool_decide; try congruence; eauto.
Qed.

End LoaderFacts.

(** ** Console and exit status *)

(** Every run prints the start line first and then at most one line more:
    the success or error line of its outcome, or nothing when an
    exception escaped. *)
Theorem console_lines pd archivo_entrada archivo_salida w :
  let run := script pd archivo_entrada archivo_salida w in
  console run.2 =
    (console w ++
     start_line archivo_entrada ::
     match run.1 with
     | Ok o => [final_line archivo_entrada archivo_salida o]
     | Raise _ => []
     end)%list.
Proof.
  simpl. destruct (script pd archivo_entrada archivo_salida w) as [r w'] eqn:Hrun.
  simpl.
  assert (Hcases : r = Ok Success \/ r <> Ok Success)
    by (destruct r as [[]|]; (by left) || (by right)).
  destruct Hcases as [->|Hfail].
  - by apply script_success_inv in Hrun as (_ & _ & _ & _ & _ & _ & _ & ->).
  - apply script_failure_inv in Hrun as (e & w1 & _ & Hcon & _ & Hcl); [|done].
    destruct (classify e) as [o|e']; destruct Hcl as [-> ->]; simpl;
      by rewrite Hcon, <- ?app_assoc.
Qed.

(** ** Failures of the loader *)



(** A recognised extension on a path one of whose ancestors is a regular
    file: the open fails with [NotADirectoryError], which is not a
    [FileNotFoundError], so the run ends in the catch-all clause and not
    in the missing-input one; no file changes. *)
Theorem input_below_file_is_unexpected pd archivo_entrada archivo_salida w :
  extension_of archivo_entrada = ".xlsx" \/ extension_of archivo_entrada = ".csv" ->
  fs w !! archivo_entrada = None ->
  below_file (fs w) archivo_entrada = true ->
  let run := script pd archivo_entrada archivo_salida w in
  run.1 = Ok (UnexpectedError ("Not a directory: " ++ archivo_entrada))
  /\ fs run.2 = fs w
  /\ calls run.2 = (calls w ++ option_list (reader_call archivo_entrada))%list.
Proof.
  intros Hext Hnone Hbelow run.
  destruct (reader_recognized pd archivo_entrada Hext) as (parse & c & Hp & Hc).
  pose proof (run_spec pd archivo_entrada archivo_salida w) as Hspec.
  simpl in Hspec. rewrite load_result, Hp in Hspec.
  unfold read_with in Hspec. rewrite Hnone, Hbelow in Hspec. simpl in Hspec.
  destruct Hspec as (Hr & Hfs & Hcalls).
  subst run. split_and!; [exact Hr | exact Hfs | exact Hcalls].
Qed.

Lemma input_below_file_is_unexpected_witness :
  let w := Ref.world {[ "notas.txt" := Ref.readable "hola" ]}
                     "2026-01-01T10:00:00" in
  let run := script Ref.pandas "notas.txt/ventas.csv" "salida.json" w in
  run.1 = Ok (UnexpectedError ("Not a directory: " ++ "notas.txt/ventas.csv"))
  /\ fs run.2 = fs w
  /\ calls run.2 = (calls w ++ option_list (reader_call "notas.txt/ventas.csv"))%list.
Proof.
  apply (input_below_file_is_unexpected Ref.pandas "notas.txt/ventas.csv"
           "salida.json"
           (Ref.world {[ "notas.txt" := Ref.readable "hola" ]}
                      "2026-01-01T10:00:00")).
  - right. vm_compute. reflexivity.
  - reflexivity.
  - vm_compute. reflexivity.
Defined.

(** An input path that is a directory, or a file without read permission,
    ends in the catch-all clause: an unexpected error, with no file
    changed and the output never opened. *)
Theorem unreadable_input_is_unexpected pd archivo_entrada archivo_salida w :
  extension_of archivo_entrada = ".xlsx" \/ extension_of archivo_entrada = ".csv" ->
  (fs w !! archivo_entrada = Some Dir
   \/ exists wr c, fs w !! archivo_entrada = Some (File false wr c)) ->
  let run := script pd archivo_entrada archivo_salida w in
  (exists cause, run.1 = Ok (UnexpectedError cause))
  /\ fs run.2 = fs w
  /\ calls run.2 = (calls w ++ option_list (reader_call archivo_entrada))%list.
Proof.
  intros Hext Hnode run.
  destruct (reader_recognized pd archivo_entrada Hext) as (parse & c & Hp & Hc).
  pose proof (run_spec pd archivo_entrada archivo_salida w) as Hspec.
  simpl in Hspec. rewrite load_result, Hp in Hspec. unfold read_with in Hspec.
  destruct Hnode as [Hdir|(wr & cont & Hfile)].
  - rewrite Hdir in Hspec. simpl in Hspec. destruct Hspec as (Hr & Hfs & Hcalls).
    subst run. split_and!; [eexists; exact Hr | exact Hfs | exact Hcalls].
  - rewrite Hfile in Hspec. simpl in Hspec. destruct Hspec as (Hr & Hfs & Hcalls).
    subst run. split_and!; [eexists; exact Hr | exact Hfs | exact Hcalls].
Qed.

Lemma unreadable_input_is_unexpected_witness :
  let w := Ref.world {[ "datos_prueba.csv" := Dir ]} "2026-01-01T10:00:00" in
  let run := script Ref.pandas "datos_prueba.csv" "salida.json" w in
  (exists cause, run.1 = Ok (UnexpectedError cause))
  /\ fs run.2 = fs w
  /\ calls run.2 = (calls w ++ option_list (reader_call "datos_prueba.csv"))%list.
Proof.
  apply (unreadable_input_is_unexpected Ref.pandas "datos_prueba.csv" "salida.json"
           (Ref.world {[ "datos_prueba.csv" := Dir ]} "2026-01-01T10:00:00")).
  - right. vm_compute. reflexivity.
  - left. reflexivity.
Defined.

(** Whatever [ValueError] the reader raises on the contents of the input
    (an empty file, a line with too many fields) is reported by the
    format clause with the reader's own message, and no file changes. *)
Theorem reader_value_error_is_format_error
    pd archivo_entrada archivo_salida w parse wr data e :
  reader_parse pd archivo_entrada = Some parse ->
  fs w !! archivo_entrada = Some (File true wr data) ->
  parse data = Raise e ->
  isinstance e ValueError = true ->
  let run := script pd archivo_entrada archivo_salida w in
  run.1 = Ok (FormatError (msg e)) /\ fs run.2 = fs w.
Proof.
  intros Hp Hfile Hparse Hval run.
  pose proof (run_spec pd archivo_entrada archivo_salida w) as Hspec.
  simpl in Hspec. rewrite load_result, Hp in Hspec.
  unfold read_with in Hspec. rewrite Hfile in Hspec. simpl in Hspec.
  rewrite Hparse in Hspec. destruct Hspec as (Hr & Hfs & _).
  split; [|done]. subst run. by rewrite Hr, classify_value_error.
Qed.

Lemma reader_value_error_is_format_error_witness :
  let w := Ref.world {[ "datos_prueba.csv" := Ref.readable "" ]}
                     "2026-01-01T10:00:00" in
  let run := script Ref.pandas "datos_prueba.csv" "salida.json" w in
  run.1 = Ok (FormatError "No columns to parse from file") /\ fs run.2 = fs w.
Proof.
  apply (reader_value_error_is_format_error Ref.pandas "datos_prueba.csv"
           "salida.json"
           (Ref.world {[ "datos_prueba.csv" := Ref.readable "" ]}
                      "2026-01-01T10:00:00")
           Ref.parse_table true (Raw "")
           (mkExc EmptyDataError "No columns to parse from file")).
  - vm_compute. reflexivity.
  - reflexivity.
  - reflexivity.
  - reflexivity.
Defined.

(** ** What a run may change *)

(** Whatever the outcome, a run leaves every path other than the output
    path exactly as it was. *)
Theorem only_output_path_changes pd archivo_entrada archivo_salida w p :
  p <> archivo_salida ->
  fs (script pd archivo_entrada archivo_salida w).2 !! p = fs w !! p.
Proof.
  intros Hp.
  pose proof (run_spec pd archivo_entrada archivo_salida w) as Hspec.
  simpl in Hspec.
  destruct (load pd archivo_entrada w).1 as [df|e];
    [|by destruct Hspec as (_ & -> & _)].
  destruct (normalized pd (now_iso w) df) as [df'|e]; [|by destruct Hspec as (_ & -> & _)].
  destruct (openable (fs w) archivo_salida).
  - destruct Hspec as (_ & -> & _). by apply lookup_insert_ne.
  - by destruct Hspec as (-> & _).
Qed.

Lemma only_output_path_changes_witness :
  let w := Ref.world {[ "datos_prueba.csv" := Ref.readable Ref.csv_ventas ]}
                     "2026-01-01T10:00:00" in
  fs (script Ref.pandas "datos_prueba.csv" "salida.json" w).2 !! "datos_prueba.csv"
  = fs w !! "datos_prueba.csv".
Proof.
  apply (only_output_path_changes Ref.pandas "datos_prueba.csv" "salida.json").
  discriminate.
Defined.

(** ** Failures of the write *)

(** When the dump meets a cell it cannot encode, the output has already
    been opened: the run ends in an unexpected error and the output path
    is left holding the beginning of a document, whatever it held
    before. *)
Theorem failed_dump_leaves_partial_output
    pd archivo_entrada archivo_salida w df df' :
  (load pd archivo_entrada w).1 = Ok df ->
  normalized pd (now_iso w) df = Ok df' ->
  doc_serializable (document_of archivo_entrada (now_iso w) df') = false ->
  openable (fs w) archivo_salida = true ->
  let run := script pd archivo_entrada archivo_salida w in
  run.1 = Ok (UnexpectedError "Object of type Timestamp is not JSON serializable")
  /\ (exists rd,
        fs run.2 !! archivo_salida =
          Some (File rd true
                  (JsonPrefix (document_of archivo_entrada (now_iso w) df'))))
  /\ document_at (fs run.2) archivo_salida = None.
Proof.
  intros Hload Hnorm Hser Hopen run.
  pose proof (run_spec pd archivo_entrada archivo_salida w) as Hspec.
  simpl in Hspec. rewrite Hload, Hnorm, Hopen, Hser in Hspec.
  destruct Hspec as (Hr & Hfs & _). subst run.
  split_and!; [done| |].
  - eexists. by rewrite Hfs, lookup_insert_eq.
  - unfold document_at. by rewrite Hfs, lookup_insert_eq.
Qed.

Lemma failed_dump_leaves_partial_output_witness :
  let anterior := mkDocument (mkMetadata "libro.xlsx" "2025-12-31T09:00:00" 0) [] in
  let w := Ref.world {[ "libro.xlsx" := Ref.readable "PK";
                        "salida.json" := File true true (JsonText anterior) ]}
                     "2026-01-01T10:00:00" in
  let run := script (Ref.with_workbook Ref.hoja_entregas) "libro.xlsx"
               "salida.json" w in
  run.1 = Ok (UnexpectedError "Object of type Timestamp is not JSON serializable")
  /\ (exists rd,
        fs run.2 !! "salida.json" =
          Some (File rd true
                  (JsonPrefix (document_of "libro.xlsx" (now_iso w)
                                 Ref.hoja_entregas))))
  /\ document_at (fs run.2) "salida.json" = None.
Proof.
  intros anterior w.
  apply (failed_dump_leaves_partial_output (Ref.with_workbook Ref.hoja_entregas)
           "libro.xlsx" "salida.json" w Ref.hoja_entregas Ref.hoja_entregas);
    vm_compute; reflexivity.
Defined.

(** An output path that exists but is a directory or a read-only file:
    the open fails, the run ends in an unexpected error, and no file
    changes. *)
Theorem unwritable_output_is_unexpected
    pd archivo_entrada archivo_salida w df df' :
  (load pd archivo_entrada w).1 = Ok df ->
  normalized pd (now_iso w) df = Ok df' ->
  is_Some (fs w !! archivo_salida) ->
  openable (fs w) archivo_salida = false ->
  let run := script pd archivo_entrada archivo_salida w in
  (exists cause, run.1 = Ok (UnexpectedError cause)) /\ fs run.2 = fs w.
Proof.
  intros Hload Hnorm [n Hn] Hopen run.
  pose proof (run_spec pd archivo_entrada archivo_salida w) as Hspec.
  simpl in Hspec. rewrite Hload, Hnorm, Hopen in Hspec.
  destruct Hspec as (Hfs & _ & e & Hr & Hsub & Hcls). subst run.
  split; [|done]. exists (msg e).
  rewrite Hr, classify_os_error by done.
  case_bool_decide as Hfnf; [|done].
  apply Hcls in Hfnf as [Hnone _]. congruence.
Qed.

Lemma unwritable_output_is_unexpected_witness :
  let anterior := mkDocument (mkMetadata "datos_prueba.csv" "2025-12-31T09:00:00" 0) [] in
  let w := Ref.world {[ "datos_prueba.csv" := Ref.readable Ref.csv_ventas;
                        "salida.json" := File true false (JsonText anterior) ]}
                     "2026-01-01T10:00:00" in
  let run := script Ref.pandas "datos_prueba.csv" "salida.json" w in
  (exists cause, run.1 = Ok (UnexpectedError cause)) /\ fs run.2 = fs w.
Proof.
  intros anterior w.
  eapply (unwritable_output_is_unexpected Ref.pandas "datos_prueba.csv"
            "salida.json" w Ref.tabla_ventas).
  - vm_compute. reflexivity.
  - vm_compute. reflexivity.
  - eexists. vm_compute. reflexivity.
  - vm_compute. reflexivity.
Defined.

(** ** The keys of an output row *)

(** In a successful run every output row has exactly the column labels
    of the table as its keys. *)
Theorem output_keys_are_columns
    pd archivo_entrada archivo_salida w w' df i r c :
  script pd archivo_entrada archivo_salida w = (Ok Success, w') ->
  (load pd archivo_entrada w).1 = Ok df ->
  wf_frame df ->
  rows df !! i = Some r ->
  is_Some (output_cell (fs w') archivo_salida i c) <-> c ∈ columns df.
Proof.
  intros Hrun Hload Hwf Hr.
  destruct (success_row _ _ _ _ _ _ _ _ Hrun Hload Hwf Hr)
    as (r' & Hout & Hlen & _ & _).
  destruct Hwf as [Hnd _]. rewrite Hout. split.
  - intros Hsome.
    destruct (decide (c ∈ columns df)) as [|Hnot]; [done|].
    unfold dict_zip in Hsome.
    rewrite foldl_insert_notin in Hsome by (by rewrite fst_zip by lia).
    rewrite lookup_empty in Hsome. by destruct Hsome.
  - intros Hc. destruct (index_of_elem _ _ Hc) as (j & Hj).
    apply index_of_lookup in Hj.
    destruct (lookup_lt_is_Some_2 r' j) as (v & Hv);
      [rewrite Hlen; by eapply lookup_lt_Some|].
    exists v. by eapply dict_zip_lookup.
Qed.

Lemma output_keys_are_columns_witness :
  let w := Ref.world {[ "datos_prueba.csv" := Ref.readable Ref.csv_ventas ]}
                     "2026-01-01T10:00:00" in
  is_Some (output_cell
             (fs (script Ref.pandas "datos_prueba.csv" "salida.json" w).2)
             "salida.json" 1 "Cliente")
  <-> "Cliente" ∈ columns Ref.tabla_ventas.
Proof.
  intros w.
  apply (output_keys_are_columns Ref.pandas "datos_prueba.csv" "salida.json" w
           _ Ref.tabla_ventas 1%nat [VStr "Ruiz"; VNull; VInt 80]).
  - vm_compute. reflexivity.
  - vm_compute. reflexivity.
  - split; [|by repeat constructor].
    apply (bool_decide_unpack _). vm_compute. exact I.
  - reflexivity.
Defined.

(** ** A date column that does not convert *)

(** When [pd.to_datetime] raises on the [Fecha_Compra] column, the run
    ends there, with the outcome of the clause that takes the exception:
    it is not a success, the script neither reads the clock for the
    metadata nor opens the output, and no file changes. *)
Theorem unconvertible_date_stops_run
    pd archivo_entrada archivo_salida w df e :
  (load pd archivo_entrada w).1 = Ok df ->
  has_column "Fecha_Compra" df = true ->
  to_datetime pd (now_iso w) (getitem df "Fecha_Compra") = Raise e ->
  let run := script pd archivo_entrada archivo_salida w in
  run.1 = classify e
  /\ run.1 <> Ok Success
  /\ fs run.2 = fs w
  /\ calls run.2 = (calls w ++ option_list (reader_call archivo_entrada))%list.
Proof.
  intros Hload Hhas Hto run.
  assert (Hnorm : normalized pd (now_iso w) df = Raise e)
    by (unfold normalized; by rewrite Hhas, Hto).
  pose proof (run_spec pd archivo_entrada archivo_salida w) as Hspec.
  simpl in Hspec. rewrite Hload, Hnorm in Hspec.
  destruct Hspec as (Hres & Hfs & Hcalls). subst run.
  split_and!; trivial.
  rewrite Hres. intros Hcl. by apply classify_failure in Hcl.
Qed.

Lemma unconvertible_date_stops_run_witness :
  let w := Ref.world {[ "datos_prueba.csv" := Ref.readable Ref.csv_mala ]}
                     "2026-01-01T10:00:00" in
  let e := mkExc DateParseError
             "Unknown datetime string format, unable to parse: no-es-fecha" in
  let run := script Ref.pandas "datos_prueba.csv" "salida.json" w in
  run.1 = classify e
  /\ run.1 <> Ok Success
  /\ fs run.2 = fs w
  /\ calls run.2 = (calls w ++ option_list (reader_call "datos_prueba.csv"))%list.
Proof.
  intros w e.
  apply (unconvertible_date_stops_run Ref.pandas "datos_prueba.csv" "salida.json" w
           Ref.tabla_mala e).
  - vm_compute. reflexivity.
  - vm_compute. reflexivity.
  - vm_compute. reflexivity.
Defined.

(** ** Normalising twice *)

Section Idempotence.

Variable jf : nat.

(** After the assignment the column reads as the series assigned. *)
Lemma column_after_setitem (filas : list (list value)) (serie : list value) :
  length serie = length filas ->
  Forall (fun r => (jf < length r)%nat) filas ->
  map (fun r => default VNull (r !! jf))
      (zip_with (fun r v => <[jf := v]> r) filas serie)
  = serie.
Proof.
  revert serie. induction filas as [|r filas IH]; intros [|v serie] Hlen Hwide;
    try discriminate; [reflexivity|].
  inversion Hwide as [|? ? Hr Hrest]; subst.
  cbn [map zip_with]. f_equal; [|apply IH; [by injection Hlen|done]].
  by rewrite list_lookup_insert_eq.
Qed.

Lemma setitem_twice (filas : list (list value)) (serie : list value) :
  zip_with (fun r v => <[jf := v]> r)
           (zip_with (fun r v => <[jf := v]> r) filas serie) serie
  = zip_with (fun r v => <[jf := v]> r) filas serie.
Proof.
  revert serie. induction filas as [|r filas IH]; intros [|v serie];
    try reflexivity.
  cbn [zip_with]. by rewrite list_insert_insert_eq, IH.
Qed.

End Idempotence.

(** When [pd.to_datetime] reads the texts written for the column back to
    the dates they were written from, normalising a normalised table
    changes nothing: the rewritten column converts again and is written
    as it is. *)
Theorem normalize_idempotent pd df df' w w' :
  wf_frame df ->
  (forall fechas,
     to_datetime pd (now_iso w) (getitem df "Fecha_Compra") = Ok fechas ->
     to_datetime pd (now_iso w) (dt_strftime pd fechas) = Ok fechas) ->
  normalize pd df w = (Ok df', w') ->
  normalize pd df' w' = (Ok df', w').
Proof.
  intros [_ Hwidth] Hback. rewrite !normalize_eq. intros [= Hnorm <-]. f_equal.
  unfold normalized in *.
  destruct (has_column "Fecha_Compra" df) eqn:Hhas;
    [|injection Hnorm as <-; by rewrite Hhas].
  destruct (to_datetime pd (now_iso w) (getitem df "Fecha_Compra"))
    as [fechas|] eqn:Hto; [|discriminate].
  injection Hnorm as <-.
  pose proof (converted_length pd (now_iso w) df fechas Hhas Hto) as Hlen.
  destruct (has_column_index _ _ Hhas) as (jf & Hjf).
  unfold has_column, getitem, setitem in *. rewrite Hjf in *. cbn [columns rows].
  rewrite Hhas, Hjf.
  rewrite (column_after_setitem jf (rows df) (dt_strftime pd fechas)).
  - rewrite (Hback fechas eq_refl). cbn [rbind].
    by rewrite setitem_twice.
  - unfold dt_strftime. by rewrite length_map.
  - eapply Forall_impl; [exact Hwidth|]. intros r ->.
    eapply lookup_lt_Some. by apply index_of_lookup.
Qed.

Lemma normalize_idempotent_witness :
  let w := Ref.world ∅ "2026-01-01T10:00:00" in
  exists df',
    normalize Ref.pandas Ref.tabla_ventas w = (Ok df', w) /\
    normalize Ref.pandas df' w = (Ok df', w).
Proof.
  intros w. eexists. split; [vm_compute; reflexivity|].
  apply (normalize_idempotent Ref.pandas Ref.tabla_ventas _ w w).
  - split; [|by repeat constructor].
    apply (bool_decide_unpack _). vm_compute. exact I.
  - intros fechas Hto. vm_compute in Hto. injection Hto as <-.
    vm_compute. reflexivity.
  - vm_compute. reflexivity.
Defined.

(** ** The extension [splitext] extracts *)

Section Splitext.

Lemma str_take_drop n s : str_take n s ++ str_drop n s = s.
Proof.
  revert n. induction s as [|a s IH]; intros [|n]; try reflexivity.
  change (String a (str_take n s ++ str_drop n s) = String a s).
  by rewrite IH.
Qed.

Lemma lacks_drop c n s : lacks c s = true -> lacks c (str_drop n s) = true.
Proof.
  revert n. induction s as [|a s IH]; intros [|n]; simpl; try done.
  intros [_ Hs]%andb_prop. by apply IH.
Qed.

Lemma str_drop_succ c n s rest :
  str_drop n s = String c rest -> str_drop (S n) s = rest.
Proof.
  revert n. induction s as [|a s IH]; intros [|n]; simpl; try discriminate.
  - by intros [= _ ->].
  - apply IH.
Qed.

Lemma str_drop_add n m s : str_drop (n + m) s = str_drop m (str_drop n s).
Proof.
  revert s. induction n as [|n IH]; intros s; [reflexivity|].
  destruct s as [|a s]; simpl; [by destruct m|apply IH].
Qed.

(** [rfind]: either the character does not occur and the default comes
    back, or the suffix at the index found starts with the character and
    has no further occurrence. *)
Lemma rfind_from_spec c s i acc :
  (rfind_from c s i acc = acc /\ lacks c s = true)
  \/ (i <= rfind_from c s i acc < i + Z.of_nat (String.length s) /\
      exists rest,
        str_drop (Z.to_nat (rfind_from c s i acc - i)) s = String c rest /\
        lacks c rest = true).
Proof.
  revert i acc. induction s as [|a s IH]; intros i acc; simpl; [by left|].
  destruct (IH (i + 1) (if Ascii.eqb a c then i else acc))
    as [[Heq Hlacks]|(Hrange & rest & Hdrop & Hrest)].
  - rewrite Heq. destruct (Ascii.eqb a c) eqn:Hac.
    + right. split; [lia|]. exists s.
      apply Ascii.eqb_eq in Hac as ->.
      by rewrite Z.sub_diag.
    + left. by rewrite Hlacks.
  - right. split; [lia|]. exists rest. split; [|done].
    replace (Z.to_nat (rfind_from c s (i + 1) (if Ascii.eqb a c then i else acc) - i))
      with (S (Z.to_nat (rfind_from c s (i + 1)
                           (if Ascii.eqb a c then i else acc) - (i + 1))))
      by lia.
    exact Hdrop.
Qed.

Lemma rfind_spec s c :
  (rfind s c = -1 /\ lacks c s = true)
  \/ (0 <= rfind s c < Z.of_nat (String.length s) /\
      exists rest,
        str_drop (Z.to_nat (rfind s c)) s = String c rest /\
        lacks c rest = true).
Proof.
  unfold rfind. destruct (rfind_from_spec c s 0 (-1)) as [?|(Hr & rest & Hd & Hl)];
    [by left|right].
  split; [lia|]. exists rest. by rewrite Z.sub_0_r in Hd.
Qed.

Lemma get_lt n s :
  (n < String.length s)%nat -> exists a, String.get n s = Some a.
Proof.
  revert n. induction s as [|a s IH]; intros n; simpl; [lia|].
  destruct n as [|n]; [eauto|]. intros Hn. apply IH. lia.
Qed.

(** The loop returns from inside only at a character that is not a dot. *)
Lemma skip_leading_dots_true fuel p extsep filenameIndex dotIndex :
  skip_leading_dots fuel p extsep filenameIndex dotIndex = true ->
  exists j,
    filenameIndex <= j < dotIndex /\
    forall a, String.get (Z.to_nat j) p = Some a -> a <> extsep.
Proof.
  revert filenameIndex.
  induction fuel as [|fuel IH]; intros filenameIndex; simpl; [discriminate|].
  destruct (filenameIndex <? dotIndex) eqn:Hlt; [|discriminate].
  apply Z.ltb_lt in Hlt.
  destruct (String.get (Z.to_nat filenameIndex) p) as [a|] eqn:Hget.
  - destruct (Ascii.eqb a extsep) eqn:Ha.
    + intros Hrec. destruct (IH _ Hrec) as (j & Hj & Hne).
      exists j. split; [lia|done].
    + intros _. exists filenameIndex. split; [lia|].
      intros a' Ha'. rewrite Hget in Ha'. injection Ha' as <-.
      by apply Ascii.eqb_neq.
  - intros _. exists filenameIndex. split; [lia|]. by rewrite Hget.
Qed.

End Splitext.

(** [splitext] cuts the path in two: root and extension put together give
    the path back, for any separators. *)
Theorem splitext_concat p sep altsep extsep :
  (_splitext p sep altsep extsep).1 ++ (_splitext p sep altsep extsep).2 = p.
Proof.
  unfold _splitext.
  destruct (_ && _); simpl; [apply str_take_drop|].
  induction p as [|a p IH]; [reflexivity|].
  change (String a (p ++ "") = String a p). by rewrite IH.
Qed.

(** The extension is empty, or it is a dot followed by characters that
    are neither a dot nor a slash: it lies in the last component of the
    path and holds one dot only. *)
Theorem splitext_extension_shape p :
  (splitext p).2 = ""
  \/ exists rest,
       (splitext p).2 = String "." rest
       /\ lacks "." rest = true /\ lacks "/" rest = true.
Proof.
  unfold splitext, _splitext.
  destruct (rfind p "." >? rfind p "/") eqn:Hgt; [|by left].
  destruct (skip_leading_dots _ _ _ _ _); [|by left].
  right. simpl. apply Z.gtb_lt in Hgt.
  destruct (rfind_spec p ".") as [[Hdot _]|(Hdr & rest & Hdrop & Hlacks)].
  { destruct (rfind_spec p "/") as [[? _]|[? _]]; lia. }
  exists rest. split_and!; [done..|].
  apply str_drop_succ in Hdrop as Hrest. rewrite <- Hrest.
  destruct (rfind_spec p "/") as [[_ Hnone]|(Hsr & rest_s & Hdrop_s & Hlacks_s)].
  - by apply lacks_drop.
  - apply str_drop_succ in Hdrop_s.
    replace (S (Z.to_nat (rfind p ".")))
      with (S (Z.to_nat (rfind p "/"))
            + (Z.to_nat (rfind p ".") - Z.to_nat (rfind p "/")))%nat by lia.
    rewrite str_drop_add, Hdrop_s. by apply lacks_drop.
Qed.

(** A non-empty extension needs a name in front of it: between the last
    slash and the last dot of the path there is a character that is not
    a dot.  So [.csv] and [datos/.csv] have no extension. *)
Theorem extension_needs_a_name p :
  (splitext p).2 <> "" ->
  exists j a,
    rfind p "/" < j < rfind p "."
    /\ String.get (Z.to_nat j) p = Some a /\ a <> "."%char.
Proof.
  unfold splitext, _splitext.
  destruct (rfind p "." >? rfind p "/") eqn:Hgt; [|done].
  destruct (skip_leading_dots _ _ _ _ _) eqn:Hskip; [|done].
  intros _. simpl in Hskip. apply Z.gtb_lt in Hgt.
  apply skip_leading_dots_true in Hskip as (j & Hj & Hne).
  assert (Hsep : -1 <= rfind p "/")
    by (destruct (rfind_spec p "/") as [[? _]|[? _]]; lia).
  assert (Hdot : rfind p "." < Z.of_nat (String.length p))
    by (destruct (rfind_spec p ".") as [[? _]|[? _]]; lia).
  destruct (get_lt (Z.to_nat j) p) as (a & Ha); [lia|].
  exists j, a. split_and!; [lia | lia | done | by apply Hne].
Qed.

Lemma extension_needs_a_name_witness :
  exists j a,
    rfind "datos_prueba.csv" "/" < j < rfind "datos_prueba.csv" "."
    /\ String.get (Z.to_nat j) "datos_prueba.csv" = Some a /\ a <> "."%char.
Proof.
  apply extension_needs_a_name. vm_compute. discriminate.
Defined.

(** Names made of dots only, with or without a directory, have no
    extension and end in the format error. *)
Example hidden_files_have_no_extension :
  extension_of ".csv" = "" /\ extension_of "datos/.csv" = ""
  /\ extension_of "..xlsx" = "" /\ extension_of "datos.v2/tabla" = "".
Proof. vm_compute. auto. Qed.

(** ** What normalisation is for *)

(** After normalisation every cell of [Fecha_Compra] is text or missing,
    never a datetime object: the column can always be encoded. *)
Theorem normalized_dates_serializable pd df df' w w' i r' v :
  normalize pd df w = (Ok df', w') ->
  rows df' !! i = Some r' ->
  cell df' r' "Fecha_Compra" = Some v ->
  serializable v = true.
Proof.
  rewrite normalize_eq. intros [= Hnorm _] Hr' Hcell.
  pose proof (normalized_columns pd (now_iso w) df df' Hnorm) as Hcols.
  pose proof (normalized_length pd (now_iso w) df df' Hnorm) as Hlen.
  destruct (lookup_lt_is_Some_2 (rows df) i) as (r & Hr);
    [rewrite <- Hlen; by eapply lookup_lt_Some|].
  destruct (normalized_row pd (now_iso w) df df' i r Hnorm Hr)
    as (r0 & Hr0 & Hwidth & _ & Hdate).
  rewrite Hr' in Hr0. injection Hr0 as <-.
  unfold cell in Hcell. rewrite Hcols in Hcell.
  destruct (index_of "Fecha_Compra" (columns df)) as [jf|] eqn:Hjf; [|discriminate].
  destruct (Hdate jf eq_refl) as (fechas & t & _ & _ & ->).
  assert (Hlt : (jf < length r)%nat)
    by (rewrite <- (length_insert r jf (strftime_cell pd t));
        by eapply lookup_lt_Some).
  rewrite list_lookup_insert_eq in Hcell by done.
  injection Hcell as <-. by destruct t.
Qed.

Lemma normalized_dates_serializable_witness :
  let hoja := mkFrame ["Cliente"; "Fecha_Compra"]
                      [ [VStr "Ana"; VTimestamp (mkDate 2024 3 15)] ] in
  serializable (VStr "2024-03-15") = true.
Proof.
  intros hoja.
  apply (normalized_dates_serializable Ref.pandas hoja
           (mkFrame ["Cliente"; "Fecha_Compra"] [ [VStr "Ana"; VStr "2024-03-15"] ])
           (Ref.world ∅ "2026-01-01T10:00:00") (Ref.world ∅ "2026-01-01T10:00:00")
           0%nat [VStr "Ana"; VStr "2024-03-15"]).
  - vm_compute. reflexivity.
  - reflexivity.
  - reflexivity.
Defined.
